(** * streamlit.caching: the two-tier memoization layer

    A shallow embedding of [lib/streamlit/caching.py]: the registry of
    per-function memory tiers ([_MemCaches]), the thread-local call-depth
    counters and their context managers, the memory and disk tiers, the
    read/write orchestration ([_read_from_cache], [_write_to_cache]) and the
    decorator ([cache] / [wrapped_func]).

    Python objects have identity and mutable state: a value is a reference
    into a heap of object states, and a [TTLCache] is a reference into a
    store of cache objects, so that what the registry holds and what a call
    holds in its local [mem_cache] are the same object.  Exceptions are an
    inductive type and every effectful function is a state transformer
    returning either a value or a raised exception.

    The keys are digests that [streamlit.hashing] computes when asked: the
    key of a function's slot once, when the decorator is evaluated, and the
    key of a call anew on every call.  Both digest the function, that is its
    code and the values the names in its code hold at that moment; these
    values are part of the world, and the body of a function may change
    them.

    Not modelled: [LOGGER] output, the spinner widget, the [Cache] class
    (block-level caching through source re-execution), the removal of the
    cache directory, floating-point NaN (numbers are integers extended with
    [math.inf]), threads (one thread, one [ThreadLocalCacheInfo]), and
    function bodies that change the state of objects returned by earlier
    calls (a body changes the environment and builds a new object). *)

From Stdlib Require Import ZArith Lia.
From stdpp Require Import gmap strings list fin_maps pretty.

Local Open Scope Z_scope.

(** ** Exceptions and results *)

Inductive Exn :=
| CacheError (msg : string)
| CacheKeyNotFoundError (msg : string)
| CachedObjectWasMutatedError (cached_value : nat)
| RuntimeError (msg : string)
| PlainException (msg : string)
| AssertionError
| KeyError (key : string)
| ValueError (msg : string)
| UtilError (msg : string)           (* streamlit.util.Error *)
| StructError (msg : string)         (* struct.error *)
| FileNotFoundError (path : string)  (* a subclass of OSError *)
| PermissionError (path : string)    (* a subclass of OSError *)
| UnhashableType (msg : string)      (* raised by streamlit.hashing *)
| PicklingError (msg : string)       (* pickle.PicklingError *)
| UserError (tag : nat).             (* raised by the wrapped function *)

Inductive Res (A : Type) :=
| Ok (a : A)
| Raise (e : Exn).
Arguments Ok {A} a.
Arguments Raise {A} e.

(** [str(e)] as used in ["... %s" % e]. *)
Definition exn_str (e : Exn) : string :=
  match e with
  | CacheError m | CacheKeyNotFoundError m | RuntimeError m | PlainException m
  | ValueError m | UtilError m | StructError m | UnhashableType m
  | PicklingError m => m
  | KeyError k => k
  | FileNotFoundError p | PermissionError p => p
  | CachedObjectWasMutatedError _ | AssertionError | UserError _ => ""%string
  end.

(** [isinstance(e, OSError)]; [IOError] is an alias of [OSError]. *)
Definition is_OSError (e : Exn) : bool :=
  match e with
  | FileNotFoundError _ | PermissionError _ => true
  | _ => false
  end.

(** ** Numbers and decorator parameter values *)

(** An [int] or [float]: an integer or [math.inf]. *)
Inductive num :=
| Num (z : Z)
| PosInf.

Global Instance num_eq_dec : EqDecision num.
Proof. solve_decision. Defined.

Definition num_ltb (a b : num) : bool :=
  match a, b with
  | Num x, Num y => Z.ltb x y
  | Num _, PosInf => true
  | PosInf, _ => false
  end.

Definition num_add (a b : num) : num :=
  match a, b with
  | Num x, Num y => Num (x + y)
  | _, _ => PosInf
  end.

(** What a caller may pass as [max_entries] or [ttl]. *)
Inductive PyVal :=
| PyNone
| PyNumber (n : num)
| PyStr (s : string).

(** ** The memory tier: [cachetools.TTLCache] *)

Record CacheEntry := mkCacheEntry {
  value : nat;              (* reference to the cached object *)
  hash : option string      (* [None], or the digest taken at write time *)
}.

(** One link of a [TTLCache]: its expiry time and the stored entry. *)
Definition Link : Type := string * (num * CacheEntry).

(** Modelled from the spec: [TTLCache] comes from the third-party
    [cachetools] package; the spec describes it as a mapping from call
    fingerprint to entry, bounded by a maximum entry count (the least
    recently used entry is discarded on overflow) and by a time-to-live per
    entry (an entry older than ttl is treated as absent, checked at read
    time).  [links] is kept in least-recently-used-first order. *)
Record TTLCache := mkTTLCache {
  maxsize : num;
  ttl : num;
  links : list Link
}.

Global Instance TTLCache_inhabited : Inhabited TTLCache :=
  populate (mkTTLCache PosInf PosInf []).

Definition TTLCache_new (maxsize ttl : num) : TTLCache :=
  mkTTLCache maxsize ttl [].

Fixpoint find_link (key : string) (ls : list Link) : option (num * CacheEntry) :=
  match ls with
  | [] => None
  | (k, l) :: rest => if decide (k = key) then Some l else find_link key rest
  end.

Fixpoint remove_link (key : string) (ls : list Link) : list Link :=
  match ls with
  | [] => []
  | (k, l) :: rest =>
      if decide (k = key) then remove_link key rest else (k, l) :: remove_link key rest
  end.

Definition link_expired (now : Z) (l : Link) : bool := num_ltb (fst (snd l)) (Num now).

(** Modelled from the spec: [key in cache], the passive expiry check at
    read time: the link exists and [not (link.expire < timer())]. *)
Definition TTLCache_contains (c : TTLCache) (key : string) (now : Z) : bool :=
  match find_link key (links c) with
  | Some (expire, _) => negb (num_ltb expire (Num now))
  | None => false
  end.

(** Modelled from the spec: [cache[key]]: [KeyError] when absent or expired;
    a hit moves the link to the recently-used end. *)
Definition TTLCache_getitem (c : TTLCache) (key : string) (now : Z)
  : Res CacheEntry * TTLCache :=
  match find_link key (links c) with
  | Some (expire, e) =>
      if num_ltb expire (Num now) then (Raise (KeyError key), c)
      else (Ok e, mkTTLCache (maxsize c) (ttl c)
                    (remove_link key (links c) ++ [(key, (expire, e))]))
  | None => (Raise (KeyError key), c)
  end.

(** Modelled from the spec: [cache.expire(time)]: drop every link with
    [expire < time].  The
    library walks the links in storing order and stops at the first live
    one; the timer being monotonic and the ttl fixed, those are the same
    links. *)
Definition TTLCache_expire (c : TTLCache) (now : Z) : TTLCache :=
  mkTTLCache (maxsize c) (ttl c)
    (filter (λ l, link_expired now l = false) (links c)).

(** Modelled from the spec: [while currsize + 1 > maxsize: popitem()], which
    discards the least recently used entries on overflow. *)
Fixpoint evict (maxsize : num) (ls : list Link) : list Link :=
  match ls with
  | [] => []
  | l :: rest =>
      if num_ltb maxsize (Num (Z.of_nat (length ls) + 1)) then evict maxsize rest
      else ls
  end.

(** Modelled from the spec: [cache[key] = entry]: expire, refuse an item
    larger than the cache ([ValueError], as the library does), make room for
    a new key, then store with [expire = time + ttl]. *)
Definition TTLCache_setitem (c : TTLCache) (key : string) (e : CacheEntry) (now : Z)
  : Res unit * TTLCache :=
  let c1 := TTLCache_expire c now in
  if num_ltb (maxsize c1) (Num 1) then (Raise (ValueError "value too large"), c1)
  else
    let kept :=
      match find_link key (links c1) with
      | Some _ => links c1
      | None => evict (maxsize c1) (links c1)
      end in
    (Ok tt, mkTTLCache (maxsize c1) (ttl c1)
              (remove_link key kept ++ [(key, (num_add (Num now) (ttl c1), e))])).

(** ** The host: collaborators that live outside [caching.py] *)

(** A file of the disk tier. *)
Inductive File (Content : Type) :=
| Pickled (c : Content)    (* a complete pickled [DiskCacheEntry] *)
| ZeroByte.                (* an empty file left by a failed write *)
Arguments Pickled {Content} c.
Arguments ZeroByte {Content}.

(** What opening the file and [pickle.dump] do for one write. *)
Inductive WriteOutcome :=
| Written
| WriteRaised (e : Exn) (left_file : bool).

(** The collaborators [caching.py] imports: [streamlit.hashing] (digests of
    values, of a function's code and of a call), [streamlit.file_util] and
    [pickle] (through [disk_write]), [os.remove] (through [remove_denied]),
    and the functions being decorated.

    [CodeHasher.update(func)] hashes the code of the function together with
    the current values of the names the code refers to (module globals,
    closure cells).  Those values are the [Env]: the hashers read it at the
    moment they run, and a function body may read and change it. *)
Class Host := {
  Content : Type;                       (* the state of a Python object *)
  Content_inhabited :: Inhabited Content;
  Args : Type;                          (* [(args, kwargs)] of one call *)
  HashFuncs : Type;                     (* a [hash_funcs] table *)
  Func : Type;                          (* a function given to [st.cache] *)
  Env : Type;                           (* the values the functions refer to *)
  initial_env : Env;                    (* those values when the script starts *)
  (* calling the function in the environment [g], as the [n]-th execution
     of a function body: the state of the object it returns, or the
     exception it raises, and the environment it leaves *)
  func_call : Func → Args → Env → nat → Res Content * Env;
  (* [get_hash(value, hash_funcs=hash_funcs)] *)
  get_hash : HashFuncs → Content → Res string;
  (* [func_hasher.hexdigest()] over module, qualified name and the function,
     hashed in the environment of the moment *)
  function_key : HashFuncs → Func → Env → Res string;
  (* [value_hasher.hexdigest()] over [[args, kwargs]] and the function,
     hashed in the environment of the moment *)
  call_key : HashFuncs → Func → Args → Env → Res string;
  (* opening [path] for writing and dumping the entry into it *)
  disk_write : string → Content → WriteOutcome;
  (* [os.remove(path)] is refused although the file exists *)
  remove_denied : string → bool
}.

(** ** Thread-local counters *)

Record ThreadLocalCacheInfo := mkInfo {
  within_cached_func : Z;
  suppress_st_function_warning : Z
}.

(** [ThreadLocalCacheInfo.__init__] *)
Definition ThreadLocalCacheInfo_init : ThreadLocalCacheInfo := mkInfo 0 0.

Section Model.
Context `{Host}.

(** ** The world a call runs in *)

Record World := mkWorld {
  heap : list Content;                    (* object states, by reference *)
  function_caches : gmap string nat;      (* [_mem_caches._function_caches] *)
  tiers : list TTLCache;                  (* the [TTLCache] objects, by reference *)
  files : gmap string (File Content);     (* the cache directory, by path *)
  timer : Z;                              (* the reading of [TTLCACHE_TIMER] *)
  _cache_info : ThreadLocalCacheInfo;
  warnings : list string;                 (* what [st.warning]/[dg.warning] showed *)
  executions : nat;                       (* function bodies executed so far *)
  client_caching : bool;                  (* [config.get_option("client.caching")] *)
  globals : Env                           (* what the functions' names hold now *)
}.

Definition set_heap (h : list Content) (w : World) : World :=
  mkWorld h (function_caches w) (tiers w) (files w) (timer w) (_cache_info w)
          (warnings w) (executions w) (client_caching w) (globals w).
Definition set_function_caches (m : gmap string nat) (w : World) : World :=
  mkWorld (heap w) m (tiers w) (files w) (timer w) (_cache_info w)
          (warnings w) (executions w) (client_caching w) (globals w).
Definition set_tiers (t : list TTLCache) (w : World) : World :=
  mkWorld (heap w) (function_caches w) t (files w) (timer w) (_cache_info w)
          (warnings w) (executions w) (client_caching w) (globals w).
Definition set_files (f : gmap string (File Content)) (w : World) : World :=
  mkWorld (heap w) (function_caches w) (tiers w) f (timer w) (_cache_info w)
          (warnings w) (executions w) (client_caching w) (globals w).
Definition set_timer (t : Z) (w : World) : World :=
  mkWorld (heap w) (function_caches w) (tiers w) (files w) t (_cache_info w)
          (warnings w) (executions w) (client_caching w) (globals w).
Definition set_cache_info (i : ThreadLocalCacheInfo) (w : World) : World :=
  mkWorld (heap w) (function_caches w) (tiers w) (files w) (timer w) i
          (warnings w) (executions w) (client_caching w) (globals w).
Definition set_warnings (l : list string) (w : World) : World :=
  mkWorld (heap w) (function_caches w) (tiers w) (files w) (timer w) (_cache_info w)
          l (executions w) (client_caching w) (globals w).
Definition set_executions (n : nat) (w : World) : World :=
  mkWorld (heap w) (function_caches w) (tiers w) (files w) (timer w) (_cache_info w)
          (warnings w) n (client_caching w) (globals w).
Definition set_globals (g : Env) (w : World) : World :=
  mkWorld (heap w) (function_caches w) (tiers w) (files w) (timer w) (_cache_info w)
          (warnings w) (executions w) (client_caching w) g.

(** A fresh process: nothing cached, counters at their initial values. *)
Definition World_init (caching : bool) : World :=
  mkWorld [] ∅ [] ∅ 0 ThreadLocalCacheInfo_init [] 0%nat caching initial_env.

(** Time passing between two calls; the timer is monotonic. *)
Definition advance_clock (d : Z) (w : World) : World :=
  set_timer (timer w + Z.max 0 d) w.

(** Code outside the cache changing the state of object [r] in place. *)
Definition mutate (r : nat) (c : Content) (w : World) : World :=
  set_heap (<[r := c]> (heap w)) w.

(** ** Effectful code: state passing with exceptions *)

Definition M (A : Type) : Type := World → Res A * World.

Definition ret {A} (a : A) : M A := λ w, (Ok a, w).
Definition raise {A} (e : Exn) : M A := λ w, (Raise e, w).
Definition bind {A B} (m : M A) (k : A → M B) : M B :=
  λ w, match m w with
       | (Ok a, w') => k a w'
       | (Raise e, w') => (Raise e, w')
       end.
(** A pure computation that may raise. *)
Definition lift {A} (r : Res A) : M A := λ w, (r, w).

(** [try: m  except ... as e: handler e]; the handler re-raises what no
    clause matches. *)
Definition try_except {A} (m : M A) (handler : Exn → M A) : M A :=
  λ w, match m w with
       | (Ok a, w') => (Ok a, w')
       | (Raise e, w') => handler e w'
       end.

(** [try: m  finally: cleanup]: the cleanup runs on every exit of [m]; an
    exception raised by the cleanup replaces the outcome of [m]. *)
Definition try_finally {A} (m : M A) (cleanup : M unit) : M A :=
  λ w, match m w with
       | (r, w') =>
           match cleanup w' with
           | (Ok _, w'') => (r, w'')
           | (Raise e, w'') => (Raise e, w'')
           end
       end.

(** stdpp's monad notations: [x ← m; k] and [m ;; k]. *)
Global Instance M_ret : MRet M := @ret.
Global Instance M_bind : MBind M := λ A B k m, bind m k.

(** ** Context managers over the thread-local counters *)

Definition add_within (d : Z) : M unit :=
  λ w, (Ok tt, set_cache_info
                 (mkInfo (within_cached_func (_cache_info w) + d)
                         (suppress_st_function_warning (_cache_info w))) w).

Definition add_suppress (d : Z) : M unit :=
  λ w, (Ok tt, set_cache_info
                 (mkInfo (within_cached_func (_cache_info w))
                         (suppress_st_function_warning (_cache_info w) + d)) w).

Definition assert_suppress_nonneg : M unit :=
  λ w, if Z.leb 0 (suppress_st_function_warning (_cache_info w))
       then (Ok tt, w) else (Raise AssertionError, w).

(** [with _calling_cached_function(): body] *)
Definition _calling_cached_function {A} (body : M A) : M A :=
  add_within 1 ;;
  try_finally body (add_within (-1)).

(** [with suppress_cached_st_function_warning(): body] *)
Definition suppress_cached_st_function_warning {A} (body : M A) : M A :=
  add_suppress 1 ;;
  try_finally body (add_suppress (-1) ;; assert_suppress_nonneg).

Definition CACHED_ST_FUNCTION_WARNING : string :=
  "Your script writes to your Streamlit app from within a cached function.".

Definition dg_warning (msg : string) : M unit :=
  λ w, (Ok tt, set_warnings (warnings w ++ [msg]) w).

Definition _show_cached_st_function_warning : M unit :=
  suppress_cached_st_function_warning (dg_warning CACHED_ST_FUNCTION_WARNING).

Definition maybe_show_cached_st_function_warning : M unit :=
  λ w, if Z.ltb 0 (within_cached_func (_cache_info w))
          && Z.leb (suppress_st_function_warning (_cache_info w)) 0
       then _show_cached_st_function_warning w
       else (Ok tt, w).

(** Code that runs under the counters: plain code that returns or raises,
    a Streamlit element call (which consults the counters), and the two
    scopes around a block, each followed by the rest of the code. *)
Inductive Script :=
| Finish (r : Res unit)
| StElement (rest : Script)
| Calling (block rest : Script)
| Suppress (block rest : Script).

Fixpoint run_script (s : Script) : M unit :=
  match s with
  | Finish r => lift r
  | StElement rest => maybe_show_cached_st_function_warning ;; run_script rest
  | Calling block rest => _calling_cached_function (run_script block) ;; run_script rest
  | Suppress block rest =>
      suppress_cached_st_function_warning (run_script block) ;; run_script rest
  end.

(** The counter values a script passes through, in order, starting from the
    world it is run in. *)
Fixpoint counter_trace (s : Script) (w : World) : list ThreadLocalCacheInfo :=
  match s with
  | Finish _ => [_cache_info w]
  | StElement rest =>
      _cache_info w :: counter_trace rest (snd (maybe_show_cached_st_function_warning w))
  | Calling block rest =>
      let w1 := snd (add_within 1 w) in
      let w2 := snd (_calling_cached_function (run_script block) w) in
      _cache_info w :: counter_trace block w1 ++
        match fst (_calling_cached_function (run_script block) w) with
        | Ok _ => counter_trace rest w2
        | Raise _ => [_cache_info w2]
        end
  | Suppress block rest =>
      let w1 := snd (add_suppress 1 w) in
      let w2 := snd (suppress_cached_st_function_warning (run_script block) w) in
      _cache_info w :: counter_trace block w1 ++
        match fst (suppress_cached_st_function_warning (run_script block) w) with
        | Ok _ => counter_trace rest w2
        | Raise _ => [_cache_info w2]
        end
  end.

(** ** The registry of memory tiers: [_MemCaches] *)

(** [_MemCaches.get_cache]: the result is a reference to the tier. *)
Definition get_cache (key : string) (max_entries_arg ttl_arg : PyVal) : M nat :=
  let max_entries_arg :=
    match max_entries_arg with PyNone => PyNumber PosInf | v => v end in
  let ttl_arg := match ttl_arg with PyNone => PyNumber PosInf | v => v end in
  match max_entries_arg, ttl_arg with
  | PyNumber max_entries, PyNumber ttl_ =>
      λ w,
        let create :=
          let mem_cache := length (tiers w) in
          (Ok mem_cache,
           set_function_caches (<[key := mem_cache]> (function_caches w))
             (set_tiers (tiers w ++ [TTLCache_new max_entries ttl_]) w)) in
        match function_caches w !! key with
        | Some mem_cache =>
            match tiers w !! mem_cache with
            | Some c =>
                if bool_decide (ttl c = ttl_) && bool_decide (maxsize c = max_entries)
                then (Ok mem_cache, w)
                else create
            | None => create    (* no such object: as if the slot were empty *)
            end
        | None => create
        end
  | PyNumber _, _ => raise (RuntimeError "ttl must be a float")
  | _, _ => raise (RuntimeError "max_entries must be an int")
  end.

(** [_MemCaches.clear] *)
Definition clear : M unit :=
  λ w, (Ok tt, set_function_caches ∅ w).

(** ** Operations on a tier held by reference *)

Definition tier_contains (mem_cache : nat) (key : string) : M bool :=
  λ w, (Ok (TTLCache_contains (tiers w !!! mem_cache) key (timer w)), w).

Definition tier_getitem (mem_cache : nat) (key : string) : M CacheEntry :=
  λ w, let r := TTLCache_getitem (tiers w !!! mem_cache) key (timer w) in
       (fst r, set_tiers (<[mem_cache := snd r]> (tiers w)) w).

Definition tier_setitem (mem_cache : nat) (key : string) (e : CacheEntry) : M unit :=
  λ w, let r := TTLCache_setitem (tiers w !!! mem_cache) key e (timer w) in
       (fst r, set_tiers (<[mem_cache := snd r]> (tiers w)) w).

(** [get_hash(value, hash_funcs=hash_funcs)] on the current state of the
    object [value] refers to. *)
Definition hash_of (value : nat) (hash_funcs : HashFuncs) : M string :=
  λ w, (get_hash hash_funcs (heap w !!! value), w).

(** [func_hasher]: a new [CodeHasher] fed the module, the qualified name
    and the function; its digest is the key of the function's slot. *)
Definition func_hasher (hash_funcs : HashFuncs) (f : Func) : M string :=
  λ w, (function_key hash_funcs f (globals w), w).

(** [value_hasher]: a new md5 fed [[args, kwargs]] and then the function,
    each through a [CodeHasher]; its digest is the key of the call. *)
Definition value_hasher (hash_funcs : HashFuncs) (f : Func) (args : Args) : M string :=
  λ w, (call_key hash_funcs f args (globals w), w).

(** ** Memory tier *)

Definition _read_from_mem_cache (mem_cache : nat) (key : string)
    (allow_output_mutation : bool) (hash_funcs : HashFuncs) : M nat :=
  present ← tier_contains mem_cache key;
  if (present : bool) then
    entry ← tier_getitem mem_cache key;
    if allow_output_mutation then ret (value entry)
    else
      h ← hash_of (value entry) hash_funcs;
      if bool_decide (Some h = hash entry) then ret (value entry)
      else raise (CachedObjectWasMutatedError (value entry))
  else raise (CacheKeyNotFoundError "Key not found in mem cache").

Definition _write_to_mem_cache (mem_cache : nat) (key : string) (value : nat)
    (allow_output_mutation : bool) (hash_funcs : HashFuncs) : M unit :=
  hash ← (if allow_output_mutation then ret None
          else h ← hash_of value hash_funcs; ret (Some h));
  tier_setitem mem_cache key (mkCacheEntry value hash).

(** ** Disk tier *)

(** [file_util.get_streamlit_file_path("cache", "%s.pickle" % key)] *)
Definition cache_path (key : string) : string :=
  ("cache/" +:+ key +:+ ".pickle")%string.

(** Modelled from the spec: [file_util.streamlit_read] followed by
    [pickle.load]; [streamlit.file_util] is not among the sources.  One file
    per fingerprint holds the pickled value only; a missing file is an
    [OSError], an empty one a [util.Error], and loading builds a new
    object. *)
Definition streamlit_read_pickle (path : string) : M nat :=
  λ w, match files w !! path with
       | None => (Raise (FileNotFoundError path), w)
       | Some ZeroByte => (Raise (UtilError ("Read zero byte file: " +:+ path)), w)
       | Some (Pickled c) => (Ok (length (heap w)), set_heap (heap w ++ [c]) w)
       end.

(** Modelled from the spec: [file_util.streamlit_write] around
    [pickle.dump]; the host decides whether the write succeeds, which
    exception it raises otherwise and whether an empty file is left. *)
Definition streamlit_write_pickle (path : string) (value : nat) : M unit :=
  λ w, match disk_write path (heap w !!! value) with
       | Written =>
           (Ok tt, set_files (<[path := Pickled (heap w !!! value)]> (files w)) w)
       | WriteRaised e left_file =>
           (Raise e,
            if left_file then set_files (<[path := ZeroByte]> (files w)) w else w)
       end.

(** [os.remove(path)] *)
Definition os_remove (path : string) : M unit :=
  λ w, match files w !! path with
       | None => (Raise (FileNotFoundError path), w)
       | Some _ =>
           if remove_denied path then (Raise (PermissionError path), w)
           else (Ok tt, set_files (delete path (files w)) w)
       end.

Definition _read_from_disk_cache (key : string) : M nat :=
  let path := cache_path key in
  try_except (streamlit_read_pickle path)
    (λ e, match e with
          | UtilError _ =>
              raise (CacheError ("Unable to read from cache: " +:+ exn_str e))
          | _ =>
              if is_OSError e
              then raise (CacheKeyNotFoundError "Key not found in disk cache")
              else raise e
          end).

Definition _write_to_disk_cache (key : string) (value : nat) : M unit :=
  let path := cache_path key in
  try_except (streamlit_write_pickle path value)
    (λ e, match e with
          | UtilError _ | StructError _ =>
              try_except (os_remove path)
                (λ e', if is_OSError e' then ret tt else raise e') ;;
              raise (CacheError ("Unable to write to cache: " +:+ exn_str e))
          | _ => raise e
          end).

(** ** Orchestration of the two tiers *)

Definition _get_mutated_output_error_message : string :=
  "**WARNING: Cached Object Mutated**".

Definition st_warning (msg : string) : M unit := dg_warning msg.

Definition _read_from_cache (mem_cache : nat) (key : string)
    (persisted allow_output_mutation : bool) (hash_funcs : HashFuncs) : M nat :=
  try_except
    (_read_from_mem_cache mem_cache key allow_output_mutation hash_funcs)
    (λ e, match e with
          | CachedObjectWasMutatedError cached_value =>
              st_warning _get_mutated_output_error_message ;;
              ret cached_value
          | CacheKeyNotFoundError _ =>
              if persisted then
                value ← _read_from_disk_cache key;
                _write_to_mem_cache mem_cache key value allow_output_mutation hash_funcs ;;
                ret value
              else raise e
          | _ => raise e
          end).

Definition _write_to_cache (mem_cache : nat) (key : string) (value : nat)
    (persist allow_output_mutation : bool) (hash_funcs : HashFuncs) : M unit :=
  _write_to_mem_cache mem_cache key value allow_output_mutation hash_funcs ;;
  if persist then _write_to_disk_cache key value else ret tt.

(** ** The decorator *)

(** The keyword arguments of [cache]. *)
Record CacheParams := mkParams {
  persist : bool;
  allow_output_mutation : bool;
  show_spinner : bool;
  suppress_st_warning : bool;
  hash_funcs : HashFuncs;
  ignore_hash : bool;
  max_entries : PyVal;
  ttl_arg : PyVal                (* the [ttl] keyword *)
}.

(** What [wrapped_func] closes over. *)
Record Decorated := mkDecorated {
  func : Func;
  params : CacheParams;
  cache_key : string
}.

(** [cache(func, persist=..., ...)] with the function given: decoration
    time.  [@st.cache(...)] without a function returns a closure that calls
    this with the same keywords. *)
Definition cache (f : Func) (p : CacheParams) : M Decorated :=
  if ignore_hash p
  then raise (PlainException
                "The `ignore_hash` argument has been renamed to `allow_output_mutation`.")
  else
    cache_key ← func_hasher (hash_funcs p) f;
    ret (mkDecorated f p cache_key).

(** Executing the body of the function: it runs in the environment of the
    moment, may change it, and builds a new object when it returns. *)
Definition call_func (f : Func) (args : Args) : M nat :=
  λ w, let run := func_call f args (globals w) (executions w) in
       let w1 := set_globals (snd run) (set_executions (S (executions w)) w) in
       match fst run with
       | Ok c => (Ok (length (heap w1)), set_heap (heap w1 ++ [c]) w1)
       | Raise e => (Raise e, w1)
       end.

(** [with st.spinner(message): body]; the widget itself is not modelled. *)
Definition st_spinner {A} (body : M A) : M A := body.

Definition get_or_create_cached_value (d : Decorated) (args : Args) : M nat :=
  let p := params d in
  mem_cache ← get_cache (cache_key d) (max_entries p) (ttl_arg p);
  value_key ← value_hasher (hash_funcs p) (func d) args;
  try_except
    (_read_from_cache mem_cache value_key (persist p) (allow_output_mutation p)
       (hash_funcs p))
    (λ e, match e with
          | CacheKeyNotFoundError _ =>
              return_value ← _calling_cached_function
                (if suppress_st_warning p
                 then suppress_cached_st_function_warning (call_func (func d) args)
                 else call_func (func d) args);
              _write_to_cache mem_cache value_key return_value (persist p)
                (allow_output_mutation p) (hash_funcs p) ;;
              ret return_value
          | _ => raise e
          end).

Definition wrapped_func (d : Decorated) (args : Args) : M nat :=
  λ w, if negb (client_caching w) then call_func (func d) args w
       else if show_spinner (params d)
            then st_spinner (get_or_create_cached_value d args) w
            else get_or_create_cached_value d args w.

(** [_clear_mem_cache]: the whole registry. *)
Definition _clear_mem_cache : M unit := clear.

(** ** Vocabulary for the statements *)

(** [m] leaves the component [proj] of the world as it found it, whether it
    returns or raises. *)
Definition preserves {X A} (proj : World → X) (m : M A) : Prop :=
  ∀ w, proj (snd (m w)) = proj w.

(** The bound a parameter value stands for: absent means [math.inf]; a
    value that is not a number stands for none. *)
Definition bound_of (v : PyVal) : option num :=
  match v with
  | PyNone => Some PosInf
  | PyNumber n => Some n
  | PyStr _ => None
  end.

(** The counters as seen inside a scope entered from [w]. *)
Definition entered_calling (w : World) : World :=
  set_cache_info (mkInfo (within_cached_func (_cache_info w) + 1)
                         (suppress_st_function_warning (_cache_info w))) w.

Definition entered_suppress (w : World) : World :=
  set_cache_info (mkInfo (within_cached_func (_cache_info w))
                         (suppress_st_function_warning (_cache_info w) + 1)) w.

(** The tier object after [cache[key]] was evaluated. *)
Definition after_getitem (mem_cache : nat) (key : string) (w : World) : World :=
  set_tiers (<[mem_cache :=
                 snd (TTLCache_getitem (tiers w !!! mem_cache) key (timer w))]> (tiers w)) w.

(** The tier object after [cache[key] = entry] was evaluated. *)
Definition after_setitem (mem_cache : nat) (key : string) (e : CacheEntry) (w : World)
  : World :=
  set_tiers (<[mem_cache :=
                 snd (TTLCache_setitem (tiers w !!! mem_cache) key e (timer w))]> (tiers w)) w.

(** The hash a write stores: none when mutation of the output is allowed. *)
Definition stored_hash (aom : bool) (hf : HashFuncs) (c : Content) : Res (option string) :=
  if aom then Ok None
  else match get_hash hf c with
       | Ok h => Ok (Some h)
       | Raise x => Raise x
       end.

(** The block [get_or_create_cached_value] runs on a miss: the function
    body under the counters. *)
Definition recompute (d : Decorated) (args : Args) : M nat :=
  _calling_cached_function
    (if suppress_st_warning (params d)
     then suppress_cached_st_function_warning (call_func (func d) args)
     else call_func (func d) args).

(** The bounds of every tier object, by reference. *)
Definition tier_bounds (w : World) : list (num * num) :=
  (λ c, (maxsize c, ttl c)) <$> tiers w.

(** The timer advanced by [d] stays within a time-to-live of [t]. *)
Definition within_ttl (d : Z) (t : num) : bool :=
  match t with
  | PosInf => true
  | Num z => Z.leb d z
  end.

Definition nonneg_counters (i : ThreadLocalCacheInfo) : Prop :=
  0 ≤ within_cached_func i ∧ 0 ≤ suppress_st_function_warning i.

(** [cache(func=None, persist=False, ...)] as a whole, the function given or
    not.  Without a function the result is the closure
    [lambda f: cache(func=f, persist=persist, ...)], which passes every
    keyword on except [ignore_hash]; with a function it is the wrapper. *)
Definition cache_decorator (f : option Func) (p : CacheParams)
  : M (Decorated + (Func → M Decorated)) :=
  if ignore_hash p
  then raise (PlainException
                "The `ignore_hash` argument has been renamed to `allow_output_mutation`.")
  else
    match f with
    | None =>
        ret (inr (λ f', cache f'
                          (mkParams (persist p) (allow_output_mutation p) (show_spinner p)
                             (suppress_st_warning p) (hash_funcs p) false
                             (max_entries p) (ttl_arg p))))
    | Some f' =>
        wrapped ← cache f' p;
        ret (inl wrapped)
    end.

(** Every tier the registry names is an object of the store. *)
Definition registry_valid (w : World) : Prop :=
  ∀ key r, function_caches w !! key = Some r → (r < length (tiers w))%nat.

End Model.

(** ** A concrete host, for running the model *)

(** Five functions a script might decorate.  The script's module has one
    global, the integer [n], which starts at 0: the environment is its
    value. *)
Inductive DemoFunc :=
| Double     (* f(x) = [x * 2] *)
| Failing    (* raises on every call *)
| Stamp      (* returns a list holding the number of the execution *)
| Tally      (* global n; n += 1; returns [n] *)
| Scaled.    (* f(x) = [x * n] *)

Definition demo_name (f : DemoFunc) : string :=
  match f with
  | Double => "app.double"
  | Failing => "app.failing"
  | Stamp => "app.stamp"
  | Tally => "app.tally"
  | Scaled => "app.scaled"
  end.

Definition demo_call (f : DemoFunc) (x : Z) (n_global : Z) (n : nat)
  : Res (list Z) * Z :=
  match f with
  | Double => (Ok [x * 2], n_global)
  | Failing => (Raise (UserError 0), n_global)
  | Stamp => (Ok [Z.of_nat n], n_global)
  | Tally => (Ok [n_global + 1], n_global + 1)
  | Scaled => (Ok [x * n_global], n_global)
  end.

(** The code of [tally] and of [scaled] refers to [n]. *)
Definition demo_refers_to_n (f : DemoFunc) : bool :=
  match f with
  | Tally | Scaled => true
  | _ => false
  end.

(** The digest of a function: its name, and for code that refers to [n] the
    digest of the value [n] has; a [hash_funcs] table may map the type of
    [n] to a function of its own, here one that returns a fixed string. *)
Definition demo_function_key (table : option string) (f : DemoFunc) (n_global : Z)
  : string :=
  if demo_refers_to_n f
  then (demo_name f +:+ "#" +:+ default (pretty n_global) table)%string
  else demo_name f.

Definition demo_call_key (table : option string) (f : DemoFunc) (x : Z) (n_global : Z)
  : string :=
  (demo_function_key table f n_global +:+ "(" +:+ pretty x +:+ ")")%string.

Definition demo_digest (c : list Z) : string :=
  foldr (λ z acc, (pretty z +:+ "," +:+ acc)%string) ""%string c.

(** Objects are lists of integers; a list holding a negative number cannot
    be packed, which leaves an empty file behind; a list holding a number
    from 1000 on stands for an object [pickle] refuses (a lambda, a lock):
    the file has been opened, so it is left empty as well. *)
Definition demo_disk_write (path : string) (c : list Z) : WriteOutcome :=
  if negb (forallb (Z.leb 0) c)
  then WriteRaised (StructError "argument out of range") true
  else if forallb (λ z, Z.ltb z 1000) c then Written
  else WriteRaised (PicklingError "cannot pickle") true.

Definition demo_host : Host := {|
  Content := list Z;
  Args := Z;
  HashFuncs := unit;
  Func := DemoFunc;
  Env := Z;
  initial_env := 0;
  func_call := demo_call;
  get_hash := λ _ c, Ok (demo_digest c);
  function_key := λ _ f n_global, Ok (demo_function_key None f n_global);
  call_key := λ _ f x n_global, Ok (demo_call_key None f x n_global);
  disk_write := demo_disk_write;
  remove_denied := λ _, false
|}.

Definition demo_params (persist allow_output_mutation : bool)
    (max_entries ttl : PyVal) : @CacheParams demo_host :=
  @mkParams demo_host persist allow_output_mutation true false tt false max_entries ttl.

(** [@st.cache] with default parameters. *)
Definition default_params : @CacheParams demo_host :=
  demo_params false false PyNone PyNone.

(** The wrapper made when the script starts. *)
Definition demo_decorated (f : DemoFunc) (p : @CacheParams demo_host)
  : @Decorated demo_host :=
  @mkDecorated demo_host f p (demo_function_key None f 0).

(** [double(3)] was called once with [persist=True], then the memory
    caches were cleared and the decorator evaluated again: the slot has a
    new, empty tier (object 1) and the disk still holds the value. *)
Definition demo_cold_world : @World demo_host :=
  snd (@get_cache demo_host "app.double" PyNone PyNone
         (snd (@_clear_mem_cache demo_host
                 (snd (wrapped_func
                         (demo_decorated Double (demo_params true false PyNone PyNone))
                         3 (@World_init demo_host true)))))).

(** The world after [double(3)] was called once in a fresh process. *)
Definition demo_cached_world (allow_output_mutation : bool) : @World demo_host :=
  snd (wrapped_func
         (demo_decorated Double (demo_params false allow_output_mutation PyNone PyNone))
         3 (@World_init demo_host true)).

(** A host like [demo_host] whose hasher refuses lists holding 26. *)
Definition picky_host : Host := {|
  Content := list Z;
  Args := Z;
  HashFuncs := unit;
  Func := DemoFunc;
  Env := Z;
  initial_env := 0;
  func_call := demo_call;
  get_hash := λ _ c, if forallb (λ z, negb (Z.eqb z 26)) c then Ok (demo_digest c)
                     else Raise (UnhashableType "cannot hash 26");
  function_key := λ _ f n_global, Ok (demo_function_key None f n_global);
  call_key := λ _ f x n_global, Ok (demo_call_key None f x n_global);
  disk_write := demo_disk_write;
  remove_denied := λ _, false
|}.

(** A host like [demo_host] with [hash_funcs] tables: no table, or a table
    that maps the type of [n] to a function returning the given string. *)
Definition table_host : Host := {|
  Content := list Z;
  Args := Z;
  HashFuncs := option string;
  Func := DemoFunc;
  Env := Z;
  initial_env := 0;
  func_call := demo_call;
  get_hash := λ _ c, Ok (demo_digest c);
  function_key := λ table f n_global, Ok (demo_function_key table f n_global);
  call_key := λ table f x n_global, Ok (demo_call_key table f x n_global);
  disk_write := demo_disk_write;
  remove_denied := λ _, false
|}.

Definition table_params (allow_output_mutation : bool) (table : option string)
  : @CacheParams table_host :=
  @mkParams table_host false allow_output_mutation true false table false PyNone PyNone.

(** The wrapper made when the script starts, with the table of [p]. *)
Definition table_decorated (f : DemoFunc) (p : @CacheParams table_host)
  : @Decorated table_host :=
  @mkDecorated table_host f p (demo_function_key (hash_funcs p) f 0).

(** The world after [scaled(3)], decorated without a table, was called once
    in a fresh process. *)
Definition table_called_world : @World table_host :=
  snd (wrapped_func (table_decorated Scaled (table_params false None)) 3
         (@World_init table_host true)).

(** [double(3)] was called once with [persist=True] in a fresh process. *)
Definition demo_persisted_world : @World demo_host :=
  snd (wrapped_func (demo_decorated Double (demo_params true false PyNone PyNone))
         3 (@World_init demo_host true)).

(** A fresh process whose cache directory holds an empty file for
    [double(3)]. *)
Definition demo_corrupt_world : @World demo_host :=
  set_files {[ cache_path "app.double(3)" := ZeroByte ]} (@World_init demo_host true).

(** A cached call that suppresses, then calls an element after the inner
    suppression has ended. *)
Definition demo_nested_script : Script :=
  Suppress (Calling (Suppress (StElement (Finish (Ok tt))) (StElement (Finish (Ok tt))))
              (StElement (Finish (Ok tt))))
           (Finish (Ok tt)).

(** * Properties *)

(** ** The memory tier *)

Lemma find_link_app key (l1 l2 : list Link) :
  find_link key (l1 ++ l2) =
  match find_link key l1 with
  | Some x => Some x
  | None => find_link key l2
  end.
Proof.
  induction l1 as [|[k l] l1 IH]; simpl; [done|].
  by destruct (decide (k = key)).
Qed.

Lemma find_link_remove_eq key (ls : list Link) :
  find_link key (remove_link key ls) = None.
Proof.
  induction ls as [|[k l] ls IH]; simpl; [done|].
  destruct (decide (k = key)) as [->|Hne]; simpl; [done|].
  by rewrite decide_False.
Qed.

Lemma find_link_remove_ne key k (ls : list Link) :
  k ≠ key → find_link k (remove_link key ls) = find_link k ls.
Proof.
  intros Hne. induction ls as [|[k' l] ls IH]; simpl; [done|].
  destruct (decide (k' = key)) as [->|Hne'].
  - by rewrite decide_False.
  - simpl. by rewrite IH.
Qed.

Lemma find_link_stored key x (ls : list Link) :
  find_link key (remove_link key ls ++ [(key, x)]) = Some x.
Proof.
  rewrite find_link_app, find_link_remove_eq. simpl. by rewrite decide_True.
Qed.

Lemma evict_unbounded (ls : list Link) : evict PosInf ls = ls.
Proof. by destruct ls. Qed.

(** A store succeeds exactly when the tier can hold one item; it keeps the
    bounds and leaves the entry under its key, expiring [ttl] from now. *)
Lemma TTLCache_setitem_ok c key e now :
  num_ltb (maxsize c) (Num 1) = false →
  ∃ c', TTLCache_setitem c key e now = (Ok tt, c')
        ∧ maxsize c' = maxsize c ∧ ttl c' = ttl c
        ∧ find_link key (links c') = Some (num_add (Num now) (ttl c), e).
Proof.
  intros Hsize. unfold TTLCache_setitem. simpl. rewrite Hsize.
  eexists. split; [reflexivity|]. simpl. by rewrite find_link_stored.
Qed.

Lemma TTLCache_setitem_full c key e now :
  num_ltb (maxsize c) (Num 1) = true →
  fst (TTLCache_setitem c key e now) = Raise (ValueError "value too large").
Proof. intros Hsize. unfold TTLCache_setitem. simpl. by rewrite Hsize. Qed.

Lemma TTLCache_setitem_bounds c key e now :
  maxsize (snd (TTLCache_setitem c key e now)) = maxsize c
  ∧ ttl (snd (TTLCache_setitem c key e now)) = ttl c.
Proof. unfold TTLCache_setitem. simpl. by destruct (num_ltb _ _). Qed.

Lemma TTLCache_getitem_bounds c key now :
  maxsize (snd (TTLCache_getitem c key now)) = maxsize c
  ∧ ttl (snd (TTLCache_getitem c key now)) = ttl c.
Proof.
  unfold TTLCache_getitem.
  destruct (find_link key (links c)) as [[expire e]|]; [|done].
  by destruct (num_ltb expire (Num now)).
Qed.

(** A key that is in the tier can be read, and reading keeps it there. *)
Lemma TTLCache_getitem_present c key now expire e :
  find_link key (links c) = Some (expire, e) →
  num_ltb expire (Num now) = false →
  TTLCache_contains c key now = true
  ∧ fst (TTLCache_getitem c key now) = Ok e
  ∧ find_link key (links (snd (TTLCache_getitem c key now))) = Some (expire, e).
Proof.
  intros Hfind Hlive. unfold TTLCache_contains, TTLCache_getitem.
  rewrite Hfind, Hlive. simpl. by rewrite find_link_stored.
Qed.

Lemma TTLCache_contains_inv c key now :
  TTLCache_contains c key now = true →
  ∃ expire e, find_link key (links c) = Some (expire, e)
              ∧ num_ltb expire (Num now) = false.
Proof.
  unfold TTLCache_contains.
  destruct (find_link key (links c)) as [[expire e]|]; [|done].
  intros Hlive. exists expire, e. split; [done|].
  by destruct (num_ltb expire (Num now)).
Qed.

(** What [expire = time + ttl] means for a later reading of the timer. *)
Lemma stored_link_live now d t :
  0 ≤ d → within_ttl d t = true →
  num_ltb (num_add (Num now) t) (Num (now + d)) = false.
Proof.
  intros Hd Ht. destruct t as [z|]; simpl in *; [|done].
  apply Z.leb_le in Ht. apply Z.ltb_ge. lia.
Qed.

(** ** Frame properties of effectful code *)

Section Frames.
Context `{Host}.
Context {X : Type} (proj : World → X).

Lemma preserves_ret {A} (a : A) : preserves proj (ret a).
Proof. by intros w. Qed.

Lemma preserves_mret {A} (a : A) : preserves proj (mret a : M A).
Proof. by intros w. Qed.

Lemma preserves_raise {A} (e : Exn) : preserves proj (raise e : M A).
Proof. by intros w. Qed.

Lemma preserves_lift {A} (r : Res A) : preserves proj (lift r).
Proof. by intros w. Qed.

Lemma preserves_bind {A B} (m : M A) (k : A → M B) :
  preserves proj m → (∀ a, preserves proj (k a)) → preserves proj (m ≫= k).
Proof.
  intros Hm Hk w. unfold mbind, M_bind, bind.
  specialize (Hm w). destruct (m w) as [[a|e] w']; simpl in *; [|done].
  by rewrite Hk.
Qed.

Lemma preserves_try_except {A} (m : M A) (handler : Exn → M A) :
  preserves proj m → (∀ e, preserves proj (handler e)) →
  preserves proj (try_except m handler).
Proof.
  intros Hm Hh w. unfold try_except.
  specialize (Hm w). destruct (m w) as [[a|e] w']; simpl in *; [done|].
  by rewrite Hh.
Qed.

Lemma preserves_try_finally {A} (m : M A) (cleanup : M unit) :
  preserves proj m → preserves proj cleanup →
  preserves proj (try_finally m cleanup).
Proof.
  intros Hm Hc w. unfold try_finally.
  specialize (Hm w). destruct (m w) as [r w']; simpl in *.
  specialize (Hc w'). destruct (cleanup w') as [[[]|e] w'']; simpl in *; congruence.
Qed.

End Frames.

Create HintDb frame.
#[export] Hint Resolve preserves_ret preserves_mret preserves_raise preserves_lift
  preserves_bind preserves_try_except preserves_try_finally : frame.

(** Splits a frame goal along the control flow of the code. *)
Ltac frame_step :=
  match goal with
  | |- preserves _ (if ?b then _ else _) => destruct b
  | |- preserves _ (match ?e with _ => _ end) => destruct e
  | |- preserves _ (_ ≫= _) => apply preserves_bind; [|intros ?]
  | |- preserves _ (try_except _ _) => apply preserves_try_except; [|intros ?]
  | |- preserves _ (try_finally _ _) => apply preserves_try_finally
  | |- preserves _ (let _ := _ in _) => cbv zeta
  end.

Ltac frame := repeat (first [ solve [eauto with frame] | frame_step ]).

(** ** The thread-local counters *)

Section Counters.
Context `{Host}.

Lemma info_eta (i : ThreadLocalCacheInfo) :
  mkInfo (within_cached_func i) (suppress_st_function_warning i) = i.
Proof. by destruct i. Qed.

(** Entering the scope adds one, and leaving it, by return or by exception,
    takes one off whatever the block left. *)
Lemma calling_unfold {A} (body : M A) (w : World) :
  _calling_cached_function body w =
  (fst (body (entered_calling w)),
   set_cache_info
     (mkInfo (within_cached_func (_cache_info (snd (body (entered_calling w)))) + -1)
             (suppress_st_function_warning (_cache_info (snd (body (entered_calling w))))))
     (snd (body (entered_calling w)))).
Proof.
  unfold _calling_cached_function, mbind, M_bind, bind, try_finally, add_within.
  fold (entered_calling w). by destruct (body (entered_calling w)) as [r w'].
Qed.

Lemma suppress_unfold {A} (body : M A) (w : World) :
  suppress_cached_st_function_warning body w =
  let w' := snd (body (entered_suppress w)) in
  let left := suppress_st_function_warning (_cache_info w') + -1 in
  ((if Z.leb 0 left then fst (body (entered_suppress w)) else Raise AssertionError),
   set_cache_info (mkInfo (within_cached_func (_cache_info w')) left) w').
Proof.
  unfold suppress_cached_st_function_warning, mbind, M_bind, bind, try_finally,
    add_suppress, assert_suppress_nonneg.
  fold (entered_suppress w). destruct (body (entered_suppress w)) as [r w']. simpl.
  by destruct (Z.leb 0 _).
Qed.

Lemma calling_preserves {A} (body : M A) :
  preserves _cache_info body → preserves _cache_info (_calling_cached_function body).
Proof.
  intros Hbody w. rewrite calling_unfold. simpl. rewrite Hbody. simpl.
  destruct (_cache_info w) as [a b]. simpl. f_equal. lia.
Qed.

Lemma suppress_preserves {A} (body : M A) :
  preserves _cache_info body →
  preserves _cache_info (suppress_cached_st_function_warning body).
Proof.
  intros Hbody w. rewrite suppress_unfold. simpl. rewrite Hbody. simpl.
  destruct (_cache_info w) as [a b]. simpl. f_equal. lia.
Qed.

Lemma dg_warning_preserves msg : preserves _cache_info (dg_warning msg).
Proof. by intros w. Qed.

Lemma maybe_show_preserves : preserves _cache_info maybe_show_cached_st_function_warning.
Proof.
  intros w. unfold maybe_show_cached_st_function_warning.
  destruct (_ && _); [|done].
  apply suppress_preserves, dg_warning_preserves.
Qed.

Lemma run_script_preserves (s : Script) : preserves _cache_info (run_script s).
Proof.
  induction s as [r|rest IH|block IHb rest IHr|block IHb rest IHr]; simpl.
  - apply preserves_lift.
  - apply preserves_bind; [apply maybe_show_preserves|done].
  - apply preserves_bind; [by apply calling_preserves|done].
  - apply preserves_bind; [by apply suppress_preserves|done].
Qed.

End Counters.

(** ** What each operation leaves alone

    A component of the world that ignores the fields an operation writes is
    preserved by it. *)

Section FrameOps.
Context `{Host}.
Context {X : Type} (proj : World → X).
Hypothesis Hheap : ∀ h w, proj (set_heap h w) = proj w.
Hypothesis Hregistry : ∀ m w, proj (set_function_caches m w) = proj w.
Hypothesis Hgetitem : ∀ r key w, proj (after_getitem r key w) = proj w.
Hypothesis Hsetitem : ∀ r key e w, proj (after_setitem r key e w) = proj w.
Hypothesis Hnewtier : ∀ c w, proj (set_tiers (tiers w ++ [c]) w) = proj w.
Hypothesis Hfiles : ∀ f w, proj (set_files f w) = proj w.
Hypothesis Hwarnings : ∀ l w, proj (set_warnings l w) = proj w.
Hypothesis Hexecutions : ∀ n w, proj (set_executions n w) = proj w.
Hypothesis Hinfo : ∀ i w, proj (set_cache_info i w) = proj w.
Hypothesis Hglobals : ∀ g w, proj (set_globals g w) = proj w.

Lemma tier_contains_frame r key : preserves proj (tier_contains r key).
Proof. by intros w. Qed.

Lemma tier_getitem_frame r key : preserves proj (tier_getitem r key).
Proof using Hgetitem. intros w. apply Hgetitem. Qed.

Lemma tier_setitem_frame r key e : preserves proj (tier_setitem r key e).
Proof using Hsetitem. intros w. apply Hsetitem. Qed.

Lemma hash_of_frame v hf : preserves proj (hash_of v hf).
Proof. by intros w. Qed.

Lemma func_hasher_frame hf f : preserves proj (func_hasher hf f).
Proof. by intros w. Qed.

Lemma value_hasher_frame hf f args : preserves proj (value_hasher hf f args).
Proof. by intros w. Qed.

Lemma dg_warning_frame msg : preserves proj (dg_warning msg).
Proof using Hwarnings. intros w. apply Hwarnings. Qed.

Lemma get_cache_frame key me t : preserves proj (get_cache key me t).
Proof using Hregistry Hnewtier.
  intros w. unfold get_cache.
  destruct me as [|me|], t as [|t|]; try done; simpl;
    repeat case_match; simpl; by rewrite ?Hregistry, ?Hnewtier.
Qed.

Lemma streamlit_read_pickle_frame path : preserves proj (streamlit_read_pickle path).
Proof using Hheap.
  intros w. unfold streamlit_read_pickle. repeat case_match; simpl; by rewrite ?Hheap.
Qed.

Lemma streamlit_write_pickle_frame path v : preserves proj (streamlit_write_pickle path v).
Proof using Hfiles.
  intros w. unfold streamlit_write_pickle. repeat case_match; simpl; by rewrite ?Hfiles.
Qed.

Lemma os_remove_frame path : preserves proj (os_remove path).
Proof using Hfiles.
  intros w. unfold os_remove. repeat case_match; simpl; by rewrite ?Hfiles.
Qed.

Lemma call_func_frame f args : preserves proj (call_func f args).
Proof using Hheap Hexecutions Hglobals.
  intros w. unfold call_func. simpl.
  destruct (fst (func_call f args (globals w) (executions w))); simpl;
    by rewrite ?Hheap, ?Hglobals, ?Hexecutions.
Qed.

Local Hint Resolve tier_contains_frame tier_getitem_frame tier_setitem_frame
  hash_of_frame func_hasher_frame value_hasher_frame dg_warning_frame get_cache_frame
  streamlit_read_pickle_frame streamlit_write_pickle_frame os_remove_frame
  call_func_frame : frame.

Lemma _read_from_mem_cache_frame r key aom hf :
  preserves proj (_read_from_mem_cache r key aom hf).
Proof using Hgetitem. unfold _read_from_mem_cache. frame. Qed.

Lemma _write_to_mem_cache_frame r key v aom hf :
  preserves proj (_write_to_mem_cache r key v aom hf).
Proof using Hsetitem. unfold _write_to_mem_cache. frame. Qed.

Lemma _read_from_disk_cache_frame key : preserves proj (_read_from_disk_cache key).
Proof using Hheap. unfold _read_from_disk_cache. frame. Qed.

Lemma _write_to_disk_cache_frame key v : preserves proj (_write_to_disk_cache key v).
Proof using Hfiles. unfold _write_to_disk_cache. frame. Qed.

Local Hint Resolve _read_from_mem_cache_frame _write_to_mem_cache_frame
  _read_from_disk_cache_frame _write_to_disk_cache_frame : frame.

Lemma calling_frame {A} (body : M A) :
  preserves proj body → preserves proj (_calling_cached_function body).
Proof using Hinfo.
  intros Hbody w. rewrite calling_unfold. simpl.
  rewrite Hinfo, Hbody. apply Hinfo.
Qed.

Lemma suppress_frame {A} (body : M A) :
  preserves proj body → preserves proj (suppress_cached_st_function_warning body).
Proof using Hinfo.
  intros Hbody w. rewrite suppress_unfold. simpl.
  rewrite Hinfo, Hbody. apply Hinfo.
Qed.

Lemma _read_from_cache_frame r key persisted aom hf :
  preserves proj (_read_from_cache r key persisted aom hf).
Proof using Hheap Hgetitem Hsetitem Hwarnings.
  unfold _read_from_cache, st_warning. frame.
Qed.

Lemma _write_to_cache_frame r key v persist aom hf :
  preserves proj (_write_to_cache r key v persist aom hf).
Proof using Hsetitem Hfiles. unfold _write_to_cache. frame. Qed.

Lemma recompute_frame d args : preserves proj (recompute d args).
Proof using Hheap Hexecutions Hinfo Hglobals.
  unfold recompute. apply calling_frame.
  destruct (suppress_st_warning (params d)); [apply suppress_frame|];
    apply call_func_frame.
Qed.

Local Hint Resolve _read_from_cache_frame _write_to_cache_frame recompute_frame : frame.

Lemma get_or_create_frame d args :
  preserves proj (get_or_create_cached_value d args).
Proof using Hheap Hregistry Hgetitem Hsetitem Hnewtier Hfiles Hwarnings Hexecutions Hinfo
  Hglobals.
  unfold get_or_create_cached_value. fold (recompute d args). frame.
Qed.

End FrameOps.

Section CountersOfCalls.
Context `{Host}.

Local Hint Resolve get_cache_frame value_hasher_frame call_func_frame
  _read_from_cache_frame _write_to_cache_frame calling_preserves suppress_preserves
  : frame.

Lemma get_or_create_preserves_info d args :
  preserves _cache_info (get_or_create_cached_value d args).
Proof.
  unfold get_or_create_cached_value. frame.
  apply calling_preserves. destruct (suppress_st_warning (params d)); frame.
Qed.

Lemma wrapped_func_preserves_info d args :
  preserves _cache_info (wrapped_func d args).
Proof.
  intros w. unfold wrapped_func, st_spinner.
  destruct (negb (client_caching w)); [by apply call_func_frame|].
  destruct (show_spinner (params d)); apply get_or_create_preserves_info.
Qed.

End CountersOfCalls.

Section CounterInvariant.
Context `{Host}.

(** Inside any script the counters never drop below their value at entry. *)
Lemma counter_trace_lower (s : Script) :
  ∀ w, Forall (λ i, within_cached_func (_cache_info w) ≤ within_cached_func i
                    ∧ suppress_st_function_warning (_cache_info w)
                      ≤ suppress_st_function_warning i)
              (counter_trace s w).
Proof.
  induction s as [r|rest IH|block IHb rest IHr|block IHb rest IHr]; intros w; simpl.
  - repeat constructor; lia.
  - constructor; [lia|].
    specialize (IH (snd (maybe_show_cached_st_function_warning w))).
    by rewrite maybe_show_preserves in IH.
  - constructor; [lia|]. apply Forall_app. split.
    + eapply Forall_impl; [apply IHb|]. simpl. intros i. lia.
    + pose proof (calling_preserves (run_script block) (run_script_preserves block) w)
        as Hback.
      destruct (fst (_calling_cached_function (run_script block) w)).
      * specialize (IHr (snd (_calling_cached_function (run_script block) w))).
        by rewrite Hback in IHr.
      * rewrite Hback. repeat constructor; lia.
  - constructor; [lia|]. apply Forall_app. split.
    + eapply Forall_impl; [apply IHb|]. simpl. intros i. lia.
    + pose proof (suppress_preserves (run_script block) (run_script_preserves block) w)
        as Hback.
      destruct (fst (suppress_cached_st_function_warning (run_script block) w)).
      * specialize (IHr (snd (suppress_cached_st_function_warning (run_script block) w))).
        by rewrite Hback in IHr.
      * rewrite Hback. repeat constructor; lia.
Qed.

(** C9: both counters start at 0; entering a scope adds one and leaving it
    takes one off on every exit path, the block returning or raising, so
    that after a scope each counter is what it was before entry; scripts
    nesting the scopes, and calls of a decorated function whose body returns
    or raises, leave both counters as they found them, and starting from
    non-negative counters no counter is ever negative and the assertion of
    the suppression scope does not fire. *)
Theorem counters_scoped (s : Script) (d : Decorated) (args : Args) (w : World)
    (Hw : nonneg_counters (_cache_info w)) :
  ThreadLocalCacheInfo_init = mkInfo 0 0
  ∧ _cache_info (entered_calling w)
    = mkInfo (within_cached_func (_cache_info w) + 1)
             (suppress_st_function_warning (_cache_info w))
  ∧ _cache_info (entered_suppress w)
    = mkInfo (within_cached_func (_cache_info w))
             (suppress_st_function_warning (_cache_info w) + 1)
  ∧ (∀ A (body : M A),
       fst (_calling_cached_function body w) = fst (body (entered_calling w))
       ∧ within_cached_func (_cache_info (snd (_calling_cached_function body w)))
         = within_cached_func (_cache_info (snd (body (entered_calling w)))) - 1)
  ∧ (∀ A (body : M A),
       suppress_st_function_warning
         (_cache_info (snd (suppress_cached_st_function_warning body w)))
       = suppress_st_function_warning (_cache_info (snd (body (entered_suppress w)))) - 1)
  ∧ (∀ A (body : M A), preserves _cache_info body →
       _cache_info (snd (_calling_cached_function body w)) = _cache_info w
       ∧ _cache_info (snd (suppress_cached_st_function_warning body w)) = _cache_info w
       ∧ fst (suppress_cached_st_function_warning body w)
         = fst (body (entered_suppress w)))
  ∧ _cache_info (snd (run_script s w)) = _cache_info w
  ∧ Forall nonneg_counters (counter_trace s w)
  ∧ _cache_info (snd (wrapped_func d args w)) = _cache_info w.
Proof.
  destruct Hw as [Hwithin Hsuppress].
  split; [done|]. split; [done|]. split; [done|].
  split; [|split; [|split; [|split; [|split]]]].
  - intros A body. rewrite calling_unfold. simpl. split; [done|lia].
  - intros A body. rewrite suppress_unfold. simpl. lia.
  - intros A body Hbody. split; [by apply calling_preserves|].
    split; [by apply suppress_preserves|].
    rewrite suppress_unfold. simpl. rewrite Hbody. simpl.
    by replace (0 <=? _ + 1 + -1) with true by (symmetry; apply Z.leb_le; lia).
  - apply run_script_preserves.
  - eapply Forall_impl; [apply counter_trace_lower|].
    unfold nonneg_counters. simpl. intros i. lia.
  - apply wrapped_func_preserves_info.
Qed.

End CounterInvariant.

(** A cached call whose block raises inside a nested suppression scope,
    followed by an element call, run in a fresh process. *)
Lemma counters_scoped_witness :
  nonneg_counters (_cache_info (@World_init demo_host true))
  ∧ Forall nonneg_counters
      (counter_trace
         (Calling (Suppress (StElement (Finish (Raise (UserError 1)))) (Finish (Ok tt)))
                  (StElement (Finish (Ok tt))))
         (@World_init demo_host true))
  ∧ _cache_info (snd (wrapped_func (demo_decorated Failing default_params) 3
                        (@World_init demo_host true)))
    = _cache_info (@World_init demo_host true).
Proof.
  assert (Hw : nonneg_counters (_cache_info (@World_init demo_host true)))
    by (split; simpl; lia).
  split; [exact Hw|].
  pose proof (counters_scoped
    (Calling (Suppress (StElement (Finish (Raise (UserError 1)))) (Finish (Ok tt)))
             (StElement (Finish (Ok tt))))
    (demo_decorated Failing default_params) 3 (@World_init demo_host true) Hw) as Hc.
  split; [apply Hc|apply Hc].
Defined.

(** ** The registry *)

Lemma find_link_live key now expire e (ls : list Link) :
  find_link key ls = Some (expire, e) →
  num_ltb expire (Num now) = false →
  find_link key (filter (λ l, link_expired now l = false) ls) = Some (expire, e).
Proof.
  intros Hfind Hlive. induction ls as [|[k [x e']] ls IH]; simpl in *; [done|].
  destruct (decide (k = key)) as [->|Hne].
  - injection Hfind as -> ->. rewrite filter_cons_True by done.
    simpl. by rewrite decide_True.
  - rewrite filter_cons. case_decide; simpl; [|by apply IH].
    rewrite decide_False by done. by apply IH.
Qed.

Section Registry.
Context `{Host}.

Lemma get_cache_numeric key max_entries_arg ttl_arg me t w :
  bound_of max_entries_arg = Some me → bound_of ttl_arg = Some t →
  get_cache key max_entries_arg ttl_arg w = get_cache key (PyNumber me) (PyNumber t) w.
Proof.
  intros Hme Ht.
  destruct max_entries_arg, ttl_arg; simpl in *; by simplify_eq.
Qed.

(** C7: with numeric or absent parameters, [get_cache] returns the tier the
    registry already holds for the slot, and changes nothing, when that tier
    has the same maxsize and ttl; otherwise it creates an empty tier with
    the new bounds and makes the registry hold it for the slot, leaving the
    other slots and tiers alone.  An absent parameter stands for
    [math.inf]: a tier with that maxsize accepts every store and drops no
    live entry for it, and an entry stored with that ttl is in the tier at
    every later time. *)
Theorem get_cache_existing_or_fresh (key : string) (max_entries_arg ttl_arg : PyVal)
    (me t : num) (w : World)
    (Hme : bound_of max_entries_arg = Some me) (Ht : bound_of ttl_arg = Some t) :
  (∀ r c, function_caches w !! key = Some r → tiers w !! r = Some c →
          maxsize c = me → ttl c = t →
          get_cache key max_entries_arg ttl_arg w = (Ok r, w))
  ∧ ((function_caches w !! key = None
      ∨ ∃ r c, function_caches w !! key = Some r ∧ tiers w !! r = Some c
               ∧ ¬ (maxsize c = me ∧ ttl c = t)) →
     ∃ w', get_cache key max_entries_arg ttl_arg w = (Ok (length (tiers w)), w')
           ∧ function_caches w' = <[key := length (tiers w)]> (function_caches w)
           ∧ tiers w' = tiers w ++ [mkTTLCache me t []]
           ∧ tiers w' !! length (tiers w) = Some (mkTTLCache me t [])
           ∧ (∀ r, (r < length (tiers w))%nat → tiers w' !! r = tiers w !! r)
           ∧ (∀ k, k ≠ key → function_caches w' !! k = function_caches w !! k))
  ∧ bound_of PyNone = Some PosInf
  ∧ (∀ c k e now, maxsize c = PosInf →
       fst (TTLCache_setitem c k e now) = Ok tt
       ∧ ∀ k' expire e', k' ≠ k →
           find_link k' (links c) = Some (expire, e') →
           num_ltb expire (Num now) = false →
           find_link k' (links (snd (TTLCache_setitem c k e now))) = Some (expire, e'))
  ∧ (∀ c k e now now', ttl c = PosInf →
       fst (TTLCache_setitem c k e now) = Ok tt →
       TTLCache_contains (snd (TTLCache_setitem c k e now)) k now' = true).
Proof.
  rewrite (get_cache_numeric _ _ _ _ _ _ Hme Ht).
  split; [|split; [|split; [done|split]]].
  - intros r c Hr Hc Hsize Httl. unfold get_cache. simpl. rewrite Hr, Hc.
    by rewrite !bool_decide_eq_true_2.
  - intros Hfresh. eexists. split.
    + unfold get_cache. simpl.
      destruct Hfresh as [->|(r & c & -> & -> & Hdiff)]; [reflexivity|].
      destruct (bool_decide (ttl c = t)) eqn:Et;
        destruct (bool_decide (maxsize c = me)) eqn:Em;
        simpl; try reflexivity.
      apply bool_decide_eq_true_1 in Et, Em. by destruct Hdiff.
    + simpl. split; [done|]. split; [done|]. split.
      * by rewrite lookup_app_r, Nat.sub_diag by lia.
      * split; [|by intros k Hk; rewrite lookup_insert_ne].
        intros r Hr. by rewrite lookup_app_l.
  - intros c k e now Hsize. unfold TTLCache_setitem. simpl. rewrite Hsize. simpl.
    split; [done|]. intros k' expire e' Hne Hfind Hlive.
    rewrite find_link_app, find_link_remove_ne by done.
    assert (Hkept : find_link k'
              (match find_link k (filter (λ l, link_expired now l = false) (links c)) with
               | Some _ => filter (λ l, link_expired now l = false) (links c)
               | None => evict PosInf (filter (λ l, link_expired now l = false) (links c))
               end) = Some (expire, e')).
    { rewrite evict_unbounded.
      destruct (find_link k _); by apply find_link_live. }
    by rewrite Hkept.
  - intros c k e now now' Httl Hok.
    destruct (num_ltb (maxsize c) (Num 1)) eqn:Hsize.
    + by rewrite TTLCache_setitem_full in Hok.
    + destruct (TTLCache_setitem_ok c k e now Hsize) as (c' & -> & _ & _ & Hfind).
      unfold TTLCache_contains. simpl. rewrite Hfind, Httl. done.
Qed.

End Registry.

(** The demo script's first access creates the slot's tier; decorating again
    with the same bounds returns that very tier. *)
Lemma get_cache_existing_or_fresh_witness :
  @get_cache demo_host "app.double" (PyNumber (Num 10)) PyNone
    (snd (@get_cache demo_host "app.double" (PyNumber (Num 10)) PyNone
            (@World_init demo_host true)))
  = (Ok 0%nat,
     snd (@get_cache demo_host "app.double" (PyNumber (Num 10)) PyNone
            (@World_init demo_host true))).
Proof.
  apply (proj1 (get_cache_existing_or_fresh (H:=demo_host) "app.double"
                  (PyNumber (Num 10)) PyNone (Num 10) PosInf _ eq_refl eq_refl)
           0%nat (mkTTLCache (Num 10) PosInf [])); reflexivity.
Defined.

(** ** Reading and writing the memory tier *)

Ltac unfold_m :=
  unfold mbind, mret, M_bind, M_ret, bind, ret, raise, lift, try_except, try_finally.

Section MemoryTier.
Context `{Host}.

Lemma _read_from_mem_cache_absent mem_cache key aom hf w :
  TTLCache_contains (tiers w !!! mem_cache) key (timer w) = false →
  _read_from_mem_cache mem_cache key aom hf w
  = (Raise (CacheKeyNotFoundError "Key not found in mem cache"), w).
Proof.
  intros Hmiss. unfold _read_from_mem_cache, tier_contains. unfold_m. by rewrite Hmiss.
Qed.

Lemma _read_from_mem_cache_present mem_cache key aom hf w expire e :
  find_link key (links (tiers w !!! mem_cache)) = Some (expire, e) →
  num_ltb expire (Num (timer w)) = false →
  _read_from_mem_cache mem_cache key aom hf w
  = (if aom then Ok (value e)
     else match get_hash hf (heap w !!! value e) with
          | Ok h => if bool_decide (Some h = hash e) then Ok (value e)
                    else Raise (CachedObjectWasMutatedError (value e))
          | Raise x => Raise x
          end,
     after_getitem mem_cache key w).
Proof.
  intros Hfind Hlive.
  destruct (TTLCache_getitem_present _ _ _ _ _ Hfind Hlive) as (Hin & Hget & _).
  unfold _read_from_mem_cache, tier_contains, tier_getitem, hash_of. unfold_m.
  rewrite Hin, Hget. fold (after_getitem mem_cache key w).
  destruct aom; [done|]. simpl.
  destruct (get_hash hf (heap w !!! value e)) as [h|x]; [|done].
  by destruct (bool_decide (Some h = hash e)).
Qed.

Lemma _write_to_mem_cache_run mem_cache key v aom hf w :
  _write_to_mem_cache mem_cache key v aom hf w
  = if aom
    then (fst (TTLCache_setitem (tiers w !!! mem_cache) key (mkCacheEntry v None) (timer w)),
          after_setitem mem_cache key (mkCacheEntry v None) w)
    else match get_hash hf (heap w !!! v) with
         | Ok h =>
             (fst (TTLCache_setitem (tiers w !!! mem_cache) key
                     (mkCacheEntry v (Some h)) (timer w)),
              after_setitem mem_cache key (mkCacheEntry v (Some h)) w)
         | Raise x => (Raise x, w)
         end.
Proof.
  unfold _write_to_mem_cache, tier_setitem, hash_of, after_setitem. unfold_m.
  destruct aom; [done|]. by destruct (get_hash hf (heap w !!! v)).
Qed.

Lemma _write_to_mem_cache_ok mem_cache key v aom hf w hsh :
  stored_hash aom hf (heap w !!! v) = Ok hsh →
  num_ltb (maxsize (tiers w !!! mem_cache)) (Num 1) = false →
  _write_to_mem_cache mem_cache key v aom hf w
  = (Ok tt, after_setitem mem_cache key (mkCacheEntry v hsh) w).
Proof.
  intros Hhash Hsize. rewrite _write_to_mem_cache_run. unfold stored_hash in Hhash.
  destruct (TTLCache_setitem_ok (tiers w !!! mem_cache) key (mkCacheEntry v hsh)
              (timer w) Hsize) as (c' & Hset & _).
  destruct aom.
  - injection Hhash as <-. by rewrite Hset.
  - destruct (get_hash hf (heap w !!! v)) as [h|x]; [|done].
    injection Hhash as <-. by rewrite Hset.
Qed.

Lemma _write_to_mem_cache_inv mem_cache key v aom hf w w1 :
  _write_to_mem_cache mem_cache key v aom hf w = (Ok tt, w1) →
  ∃ hsh, stored_hash aom hf (heap w !!! v) = Ok hsh
         ∧ num_ltb (maxsize (tiers w !!! mem_cache)) (Num 1) = false
         ∧ w1 = after_setitem mem_cache key (mkCacheEntry v hsh) w.
Proof.
  rewrite _write_to_mem_cache_run. unfold stored_hash. intros Hrun.
  assert (Hsize : ∀ e, fst (TTLCache_setitem (tiers w !!! mem_cache) key e (timer w)) = Ok tt →
                       num_ltb (maxsize (tiers w !!! mem_cache)) (Num 1) = false).
  { intros e He. destruct (num_ltb _ _) eqn:E; [|done].
    by rewrite TTLCache_setitem_full in He. }
  destruct aom.
  - injection Hrun as Hfst <-. exists None. eauto.
  - destruct (get_hash hf (heap w !!! v)) as [h|x]; [|done].
    injection Hrun as Hfst <-. exists (Some h). eauto.
Qed.

(** After a store into a live tier object, the entry is found under its key
    and is in the tier for as long as the timer stays within the ttl. *)
Lemma after_setitem_stored mem_cache key e w d :
  (mem_cache < length (tiers w))%nat →
  num_ltb (maxsize (tiers w !!! mem_cache)) (Num 1) = false →
  let w1 := after_setitem mem_cache key e w in
  maxsize (tiers w1 !!! mem_cache) = maxsize (tiers w !!! mem_cache)
  ∧ ttl (tiers w1 !!! mem_cache) = ttl (tiers w !!! mem_cache)
  ∧ find_link key (links (tiers w1 !!! mem_cache))
    = Some (num_add (Num (timer w)) (ttl (tiers w !!! mem_cache)), e)
  ∧ (0 ≤ d → within_ttl d (ttl (tiers w !!! mem_cache)) = true →
     TTLCache_contains (tiers w1 !!! mem_cache) key (timer w + d) = true).
Proof.
  intros Hlen Hsize. simpl. unfold after_setitem. simpl.
  rewrite list_lookup_total_insert_eq by done.
  destruct (TTLCache_setitem_ok (tiers w !!! mem_cache) key e (timer w) Hsize)
    as (c' & -> & Hm & Ht & Hfind). simpl.
  split; [done|]. split; [done|]. split; [done|].
  intros Hd Hin. unfold TTLCache_contains. rewrite Hfind.
  by rewrite stored_link_live.
Qed.

End MemoryTier.

Section GuardedRead.
Context `{Host}.

(** C5, amended: whatever hash an entry stores, a guarded read made with
    mutation of the output allowed returns the entry's value and does not
    raise the mutated-object condition; a null stored hash is not looked at
    on its own: read with detection enabled, an entry whose stored hash is
    null raises the condition, carrying the value, whenever the value can be
    hashed. *)
Theorem guarded_read_follows_flag (mem_cache : nat) (key : string) (hf : HashFuncs)
    (w : World) (expire : num) (e : CacheEntry)
    (Hfind : find_link key (links (tiers w !!! mem_cache)) = Some (expire, e))
    (Hlive : num_ltb expire (Num (timer w)) = false) :
  fst (_read_from_mem_cache mem_cache key true hf w) = Ok (value e)
  ∧ (∀ h, hash e = None → get_hash hf (heap w !!! value e) = Ok h →
       fst (_read_from_mem_cache mem_cache key false hf w)
       = Raise (CachedObjectWasMutatedError (value e))).
Proof.
  split.
  - by rewrite (_read_from_mem_cache_present _ _ _ _ _ _ _ Hfind Hlive).
  - intros h Hnull Hhash.
    rewrite (_read_from_mem_cache_present _ _ _ _ _ _ _ Hfind Hlive). simpl.
    rewrite Hhash, Hnull. by rewrite bool_decide_eq_false_2.
Qed.

(** C4: an entry is written with mutation detection enabled, the object is
    then changed in place so that its digest differs, and the entry is read
    again through [_read_from_cache] while still within its ttl: the read
    returns, its result is the very object that was cached, whose state is
    the mutated one, and the mutation warning has been shown. *)
Theorem mutation_warned_and_returned (mem_cache : nat) (key : string) (v : nat)
    (hf : HashFuncs) (persisted : bool) (c' : Content) (h h' : string) (d : Z)
    (w w1 : World)
    (Htier : (mem_cache < length (tiers w))%nat)
    (Hobject : (v < length (heap w))%nat)
    (Hold : get_hash hf (heap w !!! v) = Ok h)
    (Hwrite : _write_to_mem_cache mem_cache key v false hf w = (Ok tt, w1))
    (Hnew : get_hash hf c' = Ok h')
    (Hdiff : h' ≠ h)
    (Hd : 0 ≤ d)
    (Httl : within_ttl d (ttl (tiers w !!! mem_cache)) = true) :
  let w2 := advance_clock d (mutate v c' w1) in
  ∃ w3, _read_from_cache mem_cache key persisted false hf w2 = (Ok v, w3)
        ∧ heap w3 !!! v = c'
        ∧ warnings w3 = warnings w2 ++ [_get_mutated_output_error_message]
        ∧ executions w3 = executions w2.
Proof.
  destruct (_write_to_mem_cache_inv _ _ _ _ _ _ _ Hwrite) as (hsh & Hhash & Hsize & ->).
  unfold stored_hash in Hhash. rewrite Hold in Hhash. injection Hhash as <-.
  destruct (after_setitem_stored mem_cache key (mkCacheEntry v (Some h)) w d Htier Hsize)
    as (_ & _ & Hfind & _).
  simpl. unfold _read_from_cache, try_except.
  erewrite _read_from_mem_cache_present; [|exact Hfind|].
  - simpl. rewrite list_lookup_total_insert_eq by done.
    rewrite Hnew. rewrite bool_decide_eq_false_2 by congruence.
    unfold st_warning, dg_warning. unfold_m. simpl.
    eexists. split; [reflexivity|]. simpl.
    by rewrite list_lookup_total_insert_eq.
  - simpl. rewrite Z.max_r by done. by apply stored_link_live.
Qed.

End GuardedRead.

(** C5 as stated fails: the entry written by a call decorated with
    [allow_output_mutation=True] stores a null hash, and reading it with
    detection enabled raises the mutated-object condition. *)
Lemma null_hash_read_counterexample :
  links (tiers (demo_cached_world true) !!! 0%nat)
  = [("app.double(3)"%string, (PosInf, mkCacheEntry 0 None))]
  ∧ fst (@_read_from_mem_cache demo_host 0 "app.double(3)" false tt
           (demo_cached_world true))
    = Raise (CachedObjectWasMutatedError 0).
Proof. vm_compute. done. Qed.

Lemma guarded_read_follows_flag_witness :
  fst (@_read_from_mem_cache demo_host 0 "app.double(3)" true tt
         (demo_cached_world true)) = Ok 0%nat.
Proof.
  apply (guarded_read_follows_flag (H:=demo_host) 0 "app.double(3)" tt
           (demo_cached_world true) PosInf (mkCacheEntry 0 None)); reflexivity.
Defined.

(** The list returned by [double(3)] is cached, then changed from [[6]] to
    [[7]]; the next read returns it with the warning. *)
Lemma mutation_warned_and_returned_witness :
  ∃ w3, @_read_from_cache demo_host 0 "app.double(3)" false false tt
          (advance_clock 0 (@mutate demo_host 0 [7]
             (snd (@_write_to_mem_cache demo_host 0 "app.double(3)" 0 false tt
                     (demo_cached_world false)))))
        = (Ok 0%nat, w3)
        ∧ heap w3 !!! 0%nat = [7]
        ∧ warnings w3
          = warnings (advance_clock 0 (@mutate demo_host 0 [7]
             (snd (@_write_to_mem_cache demo_host 0 "app.double(3)" 0 false tt
                     (demo_cached_world false)))))
            ++ [_get_mutated_output_error_message]
        ∧ executions w3
          = executions (advance_clock 0 (@mutate demo_host 0 [7]
             (snd (@_write_to_mem_cache demo_host 0 "app.double(3)" 0 false tt
                     (demo_cached_world false))))).
Proof.
  apply (mutation_warned_and_returned (H:=demo_host) 0 "app.double(3)" 0 tt false [7]
           "6," "7," 0 (demo_cached_world false)
           (snd (@_write_to_mem_cache demo_host 0 "app.double(3)" 0 false tt
                   (demo_cached_world false))));
    try reflexivity; try (vm_compute; lia); done.
Defined.

(** ** The disk tier and the read order *)

Section DiskTier.
Context `{Host}.

Lemma _read_from_disk_cache_hit key c w :
  files w !! cache_path key = Some (Pickled c) →
  _read_from_disk_cache key w = (Ok (length (heap w)), set_heap (heap w ++ [c]) w).
Proof.
  intros Hfile. unfold _read_from_disk_cache, try_except, streamlit_read_pickle.
  by rewrite Hfile.
Qed.

Lemma _read_from_disk_cache_missing key w :
  files w !! cache_path key = None →
  _read_from_disk_cache key w
  = (Raise (CacheKeyNotFoundError "Key not found in disk cache"), w).
Proof.
  intros Hfile. unfold _read_from_disk_cache, try_except, streamlit_read_pickle.
  by rewrite Hfile.
Qed.

(** C2: [_read_from_cache] asks the memory tier first: a key that is in the
    tier is answered from it, whatever [persisted] and the disk say, and no
    object is loaded.  On a memory miss with persistence enabled the value
    is loaded from the key's file, stored in the memory tier under the key
    (where it stays for as long as the timer is within the ttl) and
    returned; a missing file is the not-found condition.  On a memory miss
    with persistence disabled the not-found condition is raised and nothing
    has changed. *)
Theorem read_memory_then_disk (mem_cache : nat) (key : string) (aom : bool)
    (hf : HashFuncs) (w : World) (Htier : (mem_cache < length (tiers w))%nat) :
  (∀ persisted expire e,
     find_link key (links (tiers w !!! mem_cache)) = Some (expire, e) →
     num_ltb expire (Num (timer w)) = false →
     (aom = true ∨ ∃ h, get_hash hf (heap w !!! value e) = Ok h) →
     ∃ w', _read_from_cache mem_cache key persisted aom hf w = (Ok (value e), w')
           ∧ heap w' = heap w ∧ files w' = files w)
  ∧ (∀ c hsh,
       TTLCache_contains (tiers w !!! mem_cache) key (timer w) = false →
       files w !! cache_path key = Some (Pickled c) →
       stored_hash aom hf c = Ok hsh →
       num_ltb (maxsize (tiers w !!! mem_cache)) (Num 1) = false →
       ∃ w', _read_from_cache mem_cache key true aom hf w = (Ok (length (heap w)), w')
             ∧ heap w' = heap w ++ [c]
             ∧ find_link key (links (tiers w' !!! mem_cache))
               = Some (num_add (Num (timer w)) (ttl (tiers w !!! mem_cache)),
                       mkCacheEntry (length (heap w)) hsh)
             ∧ ∀ d, 0 ≤ d → within_ttl d (ttl (tiers w !!! mem_cache)) = true →
                    TTLCache_contains (tiers w' !!! mem_cache) key (timer w' + d) = true)
  ∧ (TTLCache_contains (tiers w !!! mem_cache) key (timer w) = false →
     files w !! cache_path key = None →
     _read_from_cache mem_cache key true aom hf w
     = (Raise (CacheKeyNotFoundError "Key not found in disk cache"), w))
  ∧ (TTLCache_contains (tiers w !!! mem_cache) key (timer w) = false →
     _read_from_cache mem_cache key false aom hf w
     = (Raise (CacheKeyNotFoundError "Key not found in mem cache"), w)).
Proof.
  split; [|split; [|split]].
  - intros persisted expire e Hfind Hlive Hhash.
    unfold _read_from_cache, try_except.
    rewrite (_read_from_mem_cache_present _ _ _ _ _ _ _ Hfind Hlive).
    destruct aom; [by eexists|].
    destruct Hhash as [|[h ->]]; [done|].
    destruct (bool_decide (Some h = hash e)); [by eexists|].
    unfold st_warning, dg_warning. unfold_m. by eexists.
  - intros c hsh Hmiss Hfile Hhash Hsize.
    unfold _read_from_cache, try_except.
    rewrite _read_from_mem_cache_absent by done.
    unfold mbind, M_bind, bind.
    rewrite (_read_from_disk_cache_hit _ _ _ Hfile).
    assert (Hloaded : stored_hash aom hf
              (heap (set_heap (heap w ++ [c]) w) !!! length (heap w)) = Ok hsh).
    { simpl. by rewrite list_lookup_total_middle. }
    rewrite (_write_to_mem_cache_ok _ _ _ _ _ _ hsh Hloaded) by done.
    eexists. split; [reflexivity|]. split; [done|].
    destruct (after_setitem_stored mem_cache key (mkCacheEntry (length (heap w)) hsh)
                (set_heap (heap w ++ [c]) w) 0 Htier Hsize) as (_ & _ & Hfind & _).
    split; [exact Hfind|].
    intros d Hd Httl.
    by apply (after_setitem_stored mem_cache key (mkCacheEntry (length (heap w)) hsh)
                (set_heap (heap w ++ [c]) w) d Htier Hsize).
  - intros Hmiss Hfile. unfold _read_from_cache, try_except.
    rewrite _read_from_mem_cache_absent by done.
    unfold mbind, M_bind, bind.
    by rewrite (_read_from_disk_cache_missing _ _ Hfile).
  - intros Hmiss. unfold _read_from_cache, try_except.
    by rewrite _read_from_mem_cache_absent.
Qed.

End DiskTier.

(** Reading through a cold memory tier: the value comes back from disk as a
    new object and the tier now holds it. *)
Lemma read_memory_then_disk_witness :
  ∃ w', @_read_from_cache demo_host 1 "app.double(3)" true false tt demo_cold_world
        = (Ok 1%nat, w')
        ∧ heap w' = heap demo_cold_world ++ [[6]]
        ∧ find_link "app.double(3)" (links (tiers w' !!! 1%nat))
          = Some (num_add (Num (timer demo_cold_world))
                    (ttl (tiers demo_cold_world !!! 1%nat)),
                  mkCacheEntry (length (heap demo_cold_world)) (Some "6,"%string))
        ∧ ∀ d, 0 ≤ d → within_ttl d (ttl (tiers demo_cold_world !!! 1%nat)) = true →
               TTLCache_contains (tiers w' !!! 1%nat) "app.double(3)" (timer w' + d) = true.
Proof.
  assert (Htier : (1 < length (tiers demo_cold_world))%nat) by (vm_compute; lia).
  apply (read_memory_then_disk (H:=demo_host) 1 "app.double(3)" false tt
           demo_cold_world Htier); reflexivity.
Defined.

Section DiskWrite.
Context `{Host}.

(** The failures the handler names: when opening or dumping raises
    [util.Error] or [struct.error], the file of that fingerprint is removed
    before [CacheError] is raised: if the removal is not refused the path
    holds no file afterwards; whatever the removal does, missing file and
    refusal included, the call raises the [CacheError] made from the
    original error, and no other file is touched. *)
Theorem failed_disk_write_cleans_up (key : string) (v : nat) (w : World) (e : Exn)
    (left_file : bool)
    (Hfail : disk_write (cache_path key) (heap w !!! v) = WriteRaised e left_file)
    (Hclass : (∃ m, e = UtilError m) ∨ (∃ m, e = StructError m)) :
  fst (_write_to_disk_cache key v w)
  = Raise (CacheError ("Unable to write to cache: " +:+ exn_str e))
  ∧ (remove_denied (cache_path key) = false →
     files (snd (_write_to_disk_cache key v w)) !! cache_path key = None)
  ∧ (remove_denied (cache_path key) = true →
     files (snd (_write_to_disk_cache key v w)) !! cache_path key
     = if left_file then Some ZeroByte else files w !! cache_path key)
  ∧ (∀ path, path ≠ cache_path key →
       files (snd (_write_to_disk_cache key v w)) !! path = files w !! path).
Proof.
  unfold _write_to_disk_cache, try_except, streamlit_write_pickle. rewrite Hfail.
  unfold os_remove. unfold_m.
  destruct Hclass as [[m ->]|[m ->]]; destruct left_file; simpl;
    rewrite ?lookup_insert_eq;
    destruct (remove_denied (cache_path key)) eqn:Hdenied; simpl;
    try destruct (files w !! cache_path key) eqn:Hold; simpl;
    repeat split; try done; intros;
    rewrite ?lookup_delete_eq, ?lookup_insert_eq, ?lookup_delete_ne, ?lookup_insert_ne
      by done; done.
Qed.

(** C8, where the code departs from it: the handler is
    [except (util.Error, struct.error)].  When the write fails with an
    exception of any other class, as [pickle.dump] does for an object it
    cannot serialise, the handler does not run: the call raises that
    exception as it is, nothing is removed, and the file the failed write
    left stays in the cache directory, where the next read of the key fails
    on it. *)
Theorem unhandled_write_error_leaves_file (key : string) (v : nat) (w : World) (e : Exn)
    (left_file : bool)
    (Hfail : disk_write (cache_path key) (heap w !!! v) = WriteRaised e left_file)
    (Hclass : ∀ m, e ≠ UtilError m ∧ e ≠ StructError m) :
  _write_to_disk_cache key v w
  = (Raise e,
     if left_file then set_files (<[cache_path key := ZeroByte]> (files w)) w else w)
  ∧ (left_file = true →
     files (snd (_write_to_disk_cache key v w)) !! cache_path key = Some ZeroByte
     ∧ fst (_read_from_disk_cache key (snd (_write_to_disk_cache key v w)))
       = Raise (CacheError ("Unable to read from cache: Read zero byte file: "
                              +:+ cache_path key))).
Proof.
  assert (Hrun : _write_to_disk_cache key v w
            = (Raise e,
               if left_file then set_files (<[cache_path key := ZeroByte]> (files w)) w
               else w)).
  { unfold _write_to_disk_cache, try_except, streamlit_write_pickle. rewrite Hfail.
    destruct e; try done; by destruct (Hclass msg). }
  split; [done|]. intros ->. rewrite Hrun. simpl.
  rewrite lookup_insert_eq. split; [done|].
  unfold _read_from_disk_cache, try_except, streamlit_read_pickle. simpl.
  by rewrite lookup_insert_eq.
Qed.

End DiskWrite.

(** Packing a list holding a negative number fails and leaves an empty
    file, which the handler removes. *)
Lemma failed_disk_write_cleans_up_witness :
  fst (@_write_to_disk_cache demo_host "k" 0
         (snd (@call_func demo_host Double (-3) (@World_init demo_host true))))
  = Raise (CacheError "Unable to write to cache: argument out of range")
  ∧ files (snd (@_write_to_disk_cache demo_host "k" 0
                  (snd (@call_func demo_host Double (-3) (@World_init demo_host true)))))
      !! cache_path "k" = None.
Proof.
  destruct (failed_disk_write_cleans_up (H:=demo_host) "k" 0
    (snd (@call_func demo_host Double (-3) (@World_init demo_host true)))
    (StructError "argument out of range") true eq_refl
    (or_intror (ex_intro _ "argument out of range"%string eq_refl)))
    as (Hraise & Hgone & _).
  split; [exact Hraise|]. apply Hgone. reflexivity.
Defined.

(** [double(500)] returns [[1000]], which stands for an object [pickle]
    refuses: the write raises [PicklingError] and the empty file stays. *)
Lemma unhandled_write_error_leaves_file_witness :
  fst (@_write_to_disk_cache demo_host "k" 0
         (snd (@call_func demo_host Double 500 (@World_init demo_host true))))
  = Raise (PicklingError "cannot pickle")
  ∧ files (snd (@_write_to_disk_cache demo_host "k" 0
                  (snd (@call_func demo_host Double 500 (@World_init demo_host true)))))
      !! cache_path "k" = Some ZeroByte.
Proof.
  destruct (unhandled_write_error_leaves_file (H:=demo_host) "k" 0
    (snd (@call_func demo_host Double 500 (@World_init demo_host true)))
    (PicklingError "cannot pickle") true eq_refl
    (λ m, conj (λ Heq, eq_ind (PicklingError "cannot pickle")
                         (λ x, match x with PicklingError _ => True | _ => False end)
                         I _ Heq)
               (λ Heq, eq_ind (PicklingError "cannot pickle")
                         (λ x, match x with PicklingError _ => True | _ => False end)
                         I _ Heq)))
    as (Hrun & Hleft).
  split; [by rewrite Hrun|]. by apply Hleft.
Defined.

(** The same through the wrapper: [double(500)] decorated with
    [persist=True] raises the [PicklingError] itself, not a [CacheError],
    and leaves the empty file under the fingerprint of the call; once the
    memory caches have been cleared, the same call no longer reaches the
    function: reading the empty file raises [CacheError]. *)
Example unpicklable_result_poisons_key :
  fst (wrapped_func (demo_decorated Double (demo_params true false PyNone PyNone)) 500
         (@World_init demo_host true))
  = Raise (PicklingError "cannot pickle")
  ∧ files (snd (wrapped_func (demo_decorated Double (demo_params true false PyNone PyNone))
                  500 (@World_init demo_host true)))
      !! cache_path "app.double(500)" = Some ZeroByte
  ∧ fst (wrapped_func (demo_decorated Double (demo_params true false PyNone PyNone)) 500
           (snd (@_clear_mem_cache demo_host
                   (snd (wrapped_func
                           (demo_decorated Double (demo_params true false PyNone PyNone))
                           500 (@World_init demo_host true))))))
    = Raise (CacheError
               "Unable to read from cache: Read zero byte file: cache/app.double(500).pickle")
  ∧ executions
      (snd (wrapped_func (demo_decorated Double (demo_params true false PyNone PyNone)) 500
              (snd (@_clear_mem_cache demo_host
                      (snd (wrapped_func
                              (demo_decorated Double (demo_params true false PyNone PyNone))
                              500 (@World_init demo_host true)))))))
    = 1%nat.
Proof. repeat split; vm_compute; reflexivity. Qed.

(** ** Calls of a decorated function *)

Section TierBounds.
Context `{Host}.

Lemma tier_bounds_insert r c w :
  (∀ c0, tiers w !! r = Some c0 → maxsize c = maxsize c0 ∧ ttl c = ttl c0) →
  tier_bounds (set_tiers (<[r := c]> (tiers w)) w) = tier_bounds w.
Proof.
  intros Hsame. unfold tier_bounds. simpl. rewrite list_fmap_insert.
  destruct (tiers w !! r) as [c0|] eqn:Hr.
  - apply list_insert_id. rewrite list_lookup_fmap, Hr. simpl.
    destruct (Hsame c0 eq_refl) as [-> ->]. done.
  - apply list_insert_ge. rewrite length_fmap. by apply lookup_ge_None.
Qed.

Lemma tier_bounds_after_getitem r key w :
  tier_bounds (after_getitem r key w) = tier_bounds w.
Proof.
  apply tier_bounds_insert. intros c0 Hc0.
  rewrite (list_lookup_total_correct _ _ _ Hc0). apply TTLCache_getitem_bounds.
Qed.

Lemma tier_bounds_after_setitem r key e w :
  tier_bounds (after_setitem r key e w) = tier_bounds w.
Proof.
  apply tier_bounds_insert. intros c0 Hc0.
  rewrite (list_lookup_total_correct _ _ _ Hc0). apply TTLCache_setitem_bounds.
Qed.

(** What a reference with known bounds gives. *)
Lemma tier_bounds_lookup w r me t :
  tier_bounds w !! r = Some (me, t) →
  (r < length (tiers w))%nat
  ∧ tiers w !! r = Some (tiers w !!! r)
  ∧ maxsize (tiers w !!! r) = me ∧ ttl (tiers w !!! r) = t.
Proof.
  unfold tier_bounds. rewrite list_lookup_fmap.
  destruct (tiers w !! r) as [c|] eqn:Hr; [|done]. simpl. intros [= <- <-].
  rewrite (list_lookup_total_correct _ _ _ Hr).
  split; [by eapply lookup_lt_Some|done].
Qed.

Lemma get_cache_ok key ma ta w r w1 :
  get_cache key ma ta w = (Ok r, w1) →
  ∃ me t, bound_of ma = Some me ∧ bound_of ta = Some t
          ∧ function_caches w1 !! key = Some r
          ∧ tier_bounds w1 !! r = Some (me, t).
Proof.
  unfold get_cache, tier_bounds.
  assert (Hcreate : ∀ me t,
    (Ok (length (tiers w)),
     set_function_caches (<[key := length (tiers w)]> (function_caches w))
       (set_tiers (tiers w ++ [TTLCache_new me t]) w)) = (Ok r, w1) →
    function_caches w1 !! key = Some r
    ∧ ((λ c, (maxsize c, ttl c)) <$> tiers w1) !! r = Some (me, t)).
  { intros me t [= <- <-]. simpl. rewrite lookup_insert_eq. split; [done|].
    by rewrite fmap_app, lookup_app_r, length_fmap, Nat.sub_diag
      by (rewrite length_fmap; lia). }
  destruct ma as [|me|], ta as [|t|]; simpl; try done; intros Hrun.
  all: match goal with
       | _ : context [TTLCache_new ?me ?t] |- _ => exists me, t
       end; split; [done|]; split; [done|].
  all: destruct (function_caches w !! key) as [r0|] eqn:Hreg; [|by apply Hcreate].
  all: destruct (tiers w !! r0) as [c|] eqn:Hc; [|by apply Hcreate].
  all: destruct (bool_decide (ttl c = _)) eqn:Et; [|by apply Hcreate].
  all: destruct (bool_decide (maxsize c = _)) eqn:Em; [|by apply Hcreate].
  all: apply bool_decide_eq_true_1 in Et, Em; simpl in Hrun.
  all: injection Hrun as <- <-; split; [done|].
  all: rewrite list_lookup_fmap, Hc; simpl; by rewrite Et, Em.
Qed.

Lemma get_cache_existing key ma ta me t w r :
  bound_of ma = Some me → bound_of ta = Some t →
  function_caches w !! key = Some r → tier_bounds w !! r = Some (me, t) →
  get_cache key ma ta w = (Ok r, w).
Proof.
  intros Hme Ht Hreg Hb. rewrite (get_cache_numeric _ _ _ _ _ _ Hme Ht).
  destruct (tier_bounds_lookup _ _ _ _ Hb) as (_ & Hc & Hm & Htt).
  unfold get_cache. simpl. rewrite Hreg, Hc.
  by rewrite !bool_decide_eq_true_2.
Qed.

Lemma get_cache_bad key ma ta w :
  bound_of ma = None ∨ bound_of ta = None →
  ∃ msg, get_cache key ma ta w = (Raise (RuntimeError msg), w).
Proof.
  intros [Hbad|Hbad]; destruct ma, ta; simpl in *; try done; by eexists.
Qed.

End TierBounds.

Section Decoration.
Context `{Host}.

(** C6, amended: a max-entries or ttl value that is not a number does not
    make the decoration fail: [cache] returns the wrapper as for any other
    value.  The error is raised by [get_cache], that is by every call of the
    wrapper made with caching globally enabled, before the function body
    runs and with nothing changed; with caching globally disabled the call
    goes straight to the function and no error is raised for the value. *)
Theorem non_numeric_bounds_raise_at_call (f : Func) (p : CacheParams) (k : string)
    (w0 : World)
    (Hbad : bound_of (max_entries p) = None ∨ bound_of (ttl_arg p) = None)
    (Hignore : ignore_hash p = false)
    (Hkey : function_key (hash_funcs p) f (globals w0) = Ok k) :
  cache f p w0 = (Ok (mkDecorated f p k), w0)
  ∧ ∀ args w,
      (client_caching w = true →
       ∃ msg, wrapped_func (mkDecorated f p k) args w = (Raise (RuntimeError msg), w))
      ∧ (client_caching w = false →
         wrapped_func (mkDecorated f p k) args w = call_func f args w).
Proof.
  split.
  - unfold cache, func_hasher. unfold_m. by rewrite Hignore, Hkey.
  - intros args w. split; intros Hon; unfold wrapped_func; rewrite Hon; simpl; [|done].
    destruct (get_cache_bad k (max_entries p) (ttl_arg p) w Hbad) as [msg Hraise].
    exists msg. unfold st_spinner, get_or_create_cached_value. simpl.
    unfold mbind, M_bind, bind. rewrite Hraise. by destruct (show_spinner p).
Qed.

End Decoration.

(** C6 as stated fails: [@st.cache(max_entries="10")] decorates [double]
    without an error; the error comes with the first call. *)
Lemma non_numeric_decoration_counterexample :
  cache (H:=demo_host) Double (demo_params false false (PyStr "10") PyNone)
    (@World_init demo_host true)
  = (Ok (demo_decorated Double (demo_params false false (PyStr "10") PyNone)),
     @World_init demo_host true)
  ∧ wrapped_func (demo_decorated Double (demo_params false false (PyStr "10") PyNone))
      3 (@World_init demo_host true)
    = (Raise (RuntimeError "max_entries must be an int"), @World_init demo_host true).
Proof. split; reflexivity. Qed.

Lemma non_numeric_bounds_raise_at_call_witness :
  cache (H:=demo_host) Double (demo_params false false PyNone (PyStr "soon"))
    (@World_init demo_host true)
  = (Ok (demo_decorated Double (demo_params false false PyNone (PyStr "soon"))),
     @World_init demo_host true).
Proof.
  apply (non_numeric_bounds_raise_at_call (H:=demo_host) Double
           (demo_params false false PyNone (PyStr "soon")) "app.double"
           (@World_init demo_host true));
    [right|..]; reflexivity.
Defined.

Section CallSteps.
Context `{Host}.

Lemma wrapped_func_enabled d args w :
  client_caching w = true →
  wrapped_func d args w = get_or_create_cached_value d args w.
Proof.
  intros Hon. unfold wrapped_func, st_spinner. rewrite Hon. simpl.
  by destruct (show_spinner (params d)).
Qed.

(** The control flow of one call, step by step. *)
Lemma get_or_create_steps d args w :
  get_or_create_cached_value d args w =
  match get_cache (cache_key d) (max_entries (params d)) (ttl_arg (params d)) w with
  | (Raise e, w1) => (Raise e, w1)
  | (Ok mem_cache, w1) =>
      match call_key (hash_funcs (params d)) (func d) args (globals w1) with
      | Raise e => (Raise e, w1)
      | Ok value_key =>
          match _read_from_cache mem_cache value_key (persist (params d))
                  (allow_output_mutation (params d)) (hash_funcs (params d)) w1 with
          | (Ok v, w2) => (Ok v, w2)
          | (Raise (CacheKeyNotFoundError m), w2) =>
              match recompute d args w2 with
              | (Raise e, w3) => (Raise e, w3)
              | (Ok return_value, w3) =>
                  match _write_to_cache mem_cache value_key return_value
                          (persist (params d)) (allow_output_mutation (params d))
                          (hash_funcs (params d)) w3 with
                  | (Ok _, w4) => (Ok return_value, w4)
                  | (Raise e, w4) => (Raise e, w4)
                  end
              end
          | (Raise e, w2) => (Raise e, w2)
          end
      end
  end.
Proof.
  unfold get_or_create_cached_value, value_hasher. fold (recompute d args). unfold_m.
  destruct (get_cache _ _ _ w) as [[r|e] w1]; [|done].
  destruct (call_key _ _ _ _) as [vk|e]; [|done].
  destruct (_read_from_cache _ _ _ _ _ w1) as [[v|e] w2]; [done|].
  by destruct e.
Qed.

(** The function body returns: the call block yields the new object, and
    the counters are back where they were. *)
Lemma recompute_returns d args w c g :
  func_call (func d) args (globals w) (executions w) = (Ok c, g) →
  nonneg_counters (_cache_info w) →
  recompute d args w
  = (Ok (length (heap w)),
     set_heap (heap w ++ [c]) (set_globals g (set_executions (S (executions w)) w))).
Proof.
  intros Hbody [Hwithin Hsuppress]. unfold recompute. rewrite calling_unfold.
  destruct (suppress_st_warning (params d)); [rewrite suppress_unfold|];
    unfold call_func; simpl; rewrite Hbody; simpl.
  - replace (0 <=? _ + 1 + -1) with true by (symmetry; apply Z.leb_le; lia).
    destruct w as [? ? ? ? ? [a b] ? ? ? ?]. simpl. unfold set_heap, set_cache_info. simpl.
    do 3 f_equal; lia.
  - destruct w as [? ? ? ? ? [a b] ? ? ? ?]. simpl. unfold set_heap, set_cache_info. simpl.
    do 3 f_equal; lia.
Qed.

Lemma recompute_inv d args w rv w2 :
  recompute d args w = (Ok rv, w2) →
  ∃ c, fst (func_call (func d) args (globals w) (executions w)) = Ok c
       ∧ rv = length (heap w) ∧ heap w2 = heap w ++ [c]
       ∧ executions w2 = S (executions w)
       ∧ tiers w2 = tiers w ∧ function_caches w2 = function_caches w
       ∧ timer w2 = timer w ∧ client_caching w2 = client_caching w
       ∧ files w2 = files w
       ∧ globals w2 = snd (func_call (func d) args (globals w) (executions w)).
Proof.
  unfold recompute. rewrite calling_unfold.
  destruct (suppress_st_warning (params d)); [rewrite suppress_unfold|];
    unfold call_func; simpl;
    destruct (func_call (func d) args (globals w) (executions w)) as [[c|e] g]; simpl;
    try destruct (0 <=? _); try done;
    intros [= <- <-]; exists c; done.
Qed.

Lemma _write_to_cache_inv r vk v persist aom hf w w' :
  _write_to_cache r vk v persist aom hf w = (Ok tt, w') →
  ∃ hsh, stored_hash aom hf (heap w !!! v) = Ok hsh
         ∧ num_ltb (maxsize (tiers w !!! r)) (Num 1) = false
         ∧ tiers w' = tiers (after_setitem r vk (mkCacheEntry v hsh) w)
         ∧ heap w' = heap w ∧ function_caches w' = function_caches w
         ∧ timer w' = timer w ∧ executions w' = executions w
         ∧ client_caching w' = client_caching w
         ∧ globals w' = globals w.
Proof.
  unfold _write_to_cache. unfold_m.
  destruct (_write_to_mem_cache r vk v aom hf w) as [[[]|e] w1] eqn:Hmem; [|done].
  destruct (_write_to_mem_cache_inv _ _ _ _ _ _ _ Hmem) as (hsh & Hhash & Hsize & ->).
  intros Hdisk. exists hsh. split; [done|]. split; [done|].
  destruct persist; [|by injection Hdisk as <-].
  replace w' with (snd (_write_to_disk_cache vk v
                          (after_setitem r vk (mkCacheEntry v hsh) w)))
    by (by rewrite Hdisk).
  by rewrite !_write_to_disk_cache_frame.
Qed.

(** A key that is in the memory tier is answered from it. *)
Lemma _read_from_cache_present r key persisted aom hf w expire e :
  find_link key (links (tiers w !!! r)) = Some (expire, e) →
  num_ltb expire (Num (timer w)) = false →
  (aom = true ∨ ∃ h, get_hash hf (heap w !!! value e) = Ok h) →
  ∃ w', _read_from_cache r key persisted aom hf w = (Ok (value e), w')
        ∧ heap w' = heap w ∧ files w' = files w ∧ executions w' = executions w
        ∧ globals w' = globals w.
Proof.
  intros Hfind Hlive Hhash. unfold _read_from_cache, try_except.
  rewrite (_read_from_mem_cache_present _ _ _ _ _ _ _ Hfind Hlive).
  destruct aom; [by eexists|].
  destruct Hhash as [|[h ->]]; [done|].
  destruct (bool_decide (Some h = hash e)); [by eexists|].
  unfold st_warning, dg_warning. unfold_m. by eexists.
Qed.

(** Neither tier has the key: the not-found condition, nothing changed. *)
Lemma _read_from_cache_miss r key persisted aom hf w :
  TTLCache_contains (tiers w !!! r) key (timer w) = false →
  (persisted = true → files w !! cache_path key = None) →
  ∃ m, _read_from_cache r key persisted aom hf w = (Raise (CacheKeyNotFoundError m), w).
Proof.
  intros Hmiss Hfile. unfold _read_from_cache, try_except.
  rewrite _read_from_mem_cache_absent by done.
  destruct persisted; [|by eexists].
  unfold_m. rewrite _read_from_disk_cache_missing by auto. by eexists.
Qed.

Lemma _write_to_disk_cache_raises key v w e left_file :
  disk_write (cache_path key) (heap w !!! v) = WriteRaised e left_file →
  (∃ m, e = UtilError m) ∨ (∃ m, e = StructError m) →
  fst (_write_to_disk_cache key v w)
  = Raise (CacheError ("Unable to write to cache: " +:+ exn_str e)).
Proof.
  intros Hfail Hclass.
  unfold _write_to_disk_cache, try_except, streamlit_write_pickle. rewrite Hfail.
  unfold os_remove. unfold_m.
  destruct Hclass as [[m ->]|[m ->]]; destruct left_file; simpl;
    rewrite ?lookup_insert_eq;
    destruct (remove_denied (cache_path key)); simpl;
    try destruct (files w !! cache_path key); done.
Qed.

End CallSteps.

Section TwoCalls.
Context `{Host}.

Lemma get_cache_rest key ma ta w res w1 :
  get_cache key ma ta w = (res, w1) →
  heap w1 = heap w ∧ files w1 = files w ∧ timer w1 = timer w
  ∧ executions w1 = executions w ∧ _cache_info w1 = _cache_info w
  ∧ warnings w1 = warnings w ∧ client_caching w1 = client_caching w.
Proof.
  intros Hgc.
  replace w1 with (snd (get_cache key ma ta w)) by (by rewrite Hgc).
  by rewrite !get_cache_frame.
Qed.

Lemma get_cache_globals key ma ta w res w1 :
  get_cache key ma ta w = (res, w1) → globals w1 = globals w.
Proof.
  intros Hgc.
  replace w1 with (snd (get_cache key ma ta w)) by (by rewrite Hgc).
  by rewrite get_cache_frame.
Qed.

(** The state a call leaves behind when it executed the function body and
    returned: the slot's tier holds the returned object under the call's
    fingerprint, stored at the time of the call with the hash the policy of
    the call asks for. *)
Lemma executed_call_post d args w v w' :
  get_or_create_cached_value d args w = (Ok v, w') →
  executions w' ≠ executions w →
  ∃ r me t vk hsh,
    bound_of (max_entries (params d)) = Some me
    ∧ bound_of (ttl_arg (params d)) = Some t
    ∧ call_key (hash_funcs (params d)) (func d) args (globals w) = Ok vk
    ∧ function_caches w' !! cache_key d = Some r
    ∧ tier_bounds w' !! r = Some (me, t)
    ∧ find_link vk (links (tiers w' !!! r))
      = Some (num_add (Num (timer w')) t, mkCacheEntry v hsh)
    ∧ stored_hash (allow_output_mutation (params d)) (hash_funcs (params d))
        (heap w' !!! v) = Ok hsh
    ∧ executions w' = S (executions w).
Proof.
  rewrite get_or_create_steps.
  destruct (get_cache _ _ _ w) as [[r|e] w1] eqn:Hgc; [|done].
  assert (Hw1 : executions w1 = executions w ∧ globals w1 = globals w).
  { replace w1 with (snd (get_cache (cache_key d) (max_entries (params d))
      (ttl_arg (params d)) w)) by (by rewrite Hgc).
    by rewrite !get_cache_frame. }
  destruct Hw1 as [Hw1 Hg1]. rewrite Hg1.
  destruct (call_key _ _ _ _) as [vk|e] eqn:Hkey; [|done].
  destruct (_read_from_cache r vk _ _ _ w1) as [[v0|e] w2] eqn:Hread.
  { intros [= <- <-] Hexec. exfalso. apply Hexec.
    replace w2 with (snd (_read_from_cache r vk (persist (params d))
      (allow_output_mutation (params d)) (hash_funcs (params d)) w1))
      by (by rewrite Hread).
    by rewrite _read_from_cache_frame. }
  destruct e; try done.
  destruct (recompute d args w2) as [[rv|e] w3] eqn:Hcall; [|done].
  destruct (_write_to_cache r vk rv _ _ _ w3) as [[[]|e] w4] eqn:Hwrite; [|done].
  intros [= <- <-] _.
  destruct (get_cache_ok _ _ _ _ _ _ Hgc) as (me & t & Hme & Ht & Hreg & Hb).
  assert (Hw2 : function_caches w2 = function_caches w1
                ∧ tier_bounds w2 = tier_bounds w1 ∧ executions w2 = executions w1).
  { replace w2 with (snd (_read_from_cache r vk (persist (params d))
      (allow_output_mutation (params d)) (hash_funcs (params d)) w1))
      by (by rewrite Hread).
    rewrite !_read_from_cache_frame;
      auto using tier_bounds_after_getitem, tier_bounds_after_setitem. }
  destruct Hw2 as (Hreg2 & Hb2 & Hexec2).
  destruct (recompute_inv _ _ _ _ _ Hcall)
    as (c & Hbody & -> & Hheap3 & Hexec3 & Htiers3 & Hreg3 & Htimer3 & _).
  destruct (_write_to_cache_inv _ _ _ _ _ _ _ _ Hwrite)
    as (hsh & Hhash & Hsize & Htiers4 & Hheap4 & Hreg4 & Htimer4 & Hexec4 & _).
  assert (Hb3 : tier_bounds w3 !! r = Some (me, t)).
  { unfold tier_bounds. rewrite Htiers3. fold (tier_bounds w2). by rewrite Hb2. }
  destruct (tier_bounds_lookup _ _ _ _ Hb3) as (Hlen & _ & _ & Httl).
  destruct (after_setitem_stored r vk (mkCacheEntry (length (heap w2)) hsh) w3 0
              Hlen Hsize) as (_ & _ & Hfind & _).
  exists r, me, t, vk, hsh. repeat split; try done.
  - by rewrite Hreg4, Hreg3, Hreg2.
  - unfold tier_bounds. rewrite Htiers4.
    fold (tier_bounds (after_setitem r vk (mkCacheEntry (length (heap w2)) hsh) w3)).
    by rewrite tier_bounds_after_setitem.
  - rewrite Htiers4, Hfind, Httl, Htimer4. done.
  - by rewrite Hheap4.
  - by rewrite Hexec4, Hexec3, Hexec2, Hw1.
Qed.

(** The object a call that executed the body returns is an object of the
    heap. *)
Lemma executed_call_object d args w v w' :
  get_or_create_cached_value d args w = (Ok v, w') →
  executions w' ≠ executions w →
  (v < length (heap w'))%nat.
Proof.
  rewrite get_or_create_steps.
  destruct (get_cache _ _ _ w) as [[r|e] w1] eqn:Hgc; [|done].
  destruct (get_cache_rest _ _ _ _ _ _ Hgc) as (_ & _ & _ & Hw1 & _).
  destruct (call_key _ _ _ _) as [vk|e]; [|done].
  destruct (_read_from_cache r vk _ _ _ w1) as [[v0|e] w2] eqn:Hread.
  { intros [= <- <-] Hexec. exfalso. apply Hexec.
    replace w2 with (snd (_read_from_cache r vk (persist (params d))
      (allow_output_mutation (params d)) (hash_funcs (params d)) w1))
      by (by rewrite Hread).
    by rewrite _read_from_cache_frame. }
  destruct e; try done.
  destruct (recompute d args w2) as [[rv|e] w3] eqn:Hcall; [|done].
  destruct (_write_to_cache r vk rv _ _ _ w3) as [[[]|e] w4] eqn:Hwrite; [|done].
  intros [= <- <-] _.
  destruct (recompute_inv _ _ _ _ _ Hcall) as (c & _ & -> & Hheap3 & _).
  destruct (_write_to_cache_inv _ _ _ _ _ _ _ _ Hwrite) as (hsh & _ & _ & _ & Hheap4 & _).
  rewrite Hheap4, Hheap3, length_app. simpl. lia.
Qed.

(** A call that finds its entry in the slot's tier, step by step: the tier
    is the registered one, the entry is used, and the policy of the call
    decides what the read does with the stored hash. *)
Lemma get_or_create_hit_run d args w r me t vk expire e :
  bound_of (max_entries (params d)) = Some me →
  bound_of (ttl_arg (params d)) = Some t →
  function_caches w !! cache_key d = Some r →
  tier_bounds w !! r = Some (me, t) →
  call_key (hash_funcs (params d)) (func d) args (globals w) = Ok vk →
  find_link vk (links (tiers w !!! r)) = Some (expire, e) →
  num_ltb expire (Num (timer w)) = false →
  (allow_output_mutation (params d) = true →
   get_or_create_cached_value d args w = (Ok (value e), after_getitem r vk w))
  ∧ (∀ h, allow_output_mutation (params d) = false →
       get_hash (hash_funcs (params d)) (heap w !!! value e) = Ok h →
       get_or_create_cached_value d args w
       = (Ok (value e),
          if bool_decide (Some h = hash e) then after_getitem r vk w
          else set_warnings (warnings w ++ [_get_mutated_output_error_message])
                 (after_getitem r vk w))).
Proof.
  intros Hme Ht Hreg Hb Hkey Hfind Hlive.
  rewrite get_or_create_steps.
  rewrite (get_cache_existing _ _ _ _ _ _ _ Hme Ht Hreg Hb), Hkey.
  unfold _read_from_cache, try_except.
  rewrite (_read_from_mem_cache_present _ _ _ _ _ _ _ Hfind Hlive).
  split.
  - by intros ->.
  - intros h -> ->. destruct (bool_decide (Some h = hash e)); [done|].
    unfold st_warning, dg_warning. by unfold_m.
Qed.

(** A call that finds its entry in the slot's tier returns the stored object
    and executes nothing. *)
Lemma get_or_create_hit d args w r me t vk expire v hsh :
  bound_of (max_entries (params d)) = Some me →
  bound_of (ttl_arg (params d)) = Some t →
  function_caches w !! cache_key d = Some r →
  tier_bounds w !! r = Some (me, t) →
  call_key (hash_funcs (params d)) (func d) args (globals w) = Ok vk →
  find_link vk (links (tiers w !!! r)) = Some (expire, mkCacheEntry v hsh) →
  num_ltb expire (Num (timer w)) = false →
  (allow_output_mutation (params d) = true
   ∨ ∃ h, get_hash (hash_funcs (params d)) (heap w !!! v) = Ok h) →
  ∃ w', get_or_create_cached_value d args w = (Ok v, w')
        ∧ executions w' = executions w ∧ heap w' = heap w ∧ files w' = files w
        ∧ globals w' = globals w.
Proof.
  intros Hme Ht Hreg Hb Hkey Hfind Hlive Hhash.
  rewrite get_or_create_steps.
  rewrite (get_cache_existing _ _ _ _ _ _ _ Hme Ht Hreg Hb), Hkey.
  destruct (_read_from_cache_present r vk (persist (params d))
              (allow_output_mutation (params d)) (hash_funcs (params d)) w expire
              (mkCacheEntry v hsh) Hfind Hlive Hhash)
    as (w' & -> & Hheap & Hfiles & Hexec & Hglobals).
  by exists w'.
Qed.

End TwoCalls.

Section CallTheorems.
Context `{Host}.

Lemma get_or_create_keeps_switch d args :
  preserves client_caching (get_or_create_cached_value d args).
Proof. by apply get_or_create_frame. Qed.

(** A mutation in place of one object changes the heap only, and changes
    nothing when the object gets the state it has. *)
Lemma mutate_object r c w :
  (r < length (heap w))%nat → heap (mutate r c w) !!! r = c.
Proof. intros Hr. simpl. by rewrite list_lookup_total_insert_eq. Qed.

(** C1, amended: when a call of a decorated function, made with caching
    globally enabled, executes the function body and returns, and the
    fingerprint of the call, hashed anew at the next call from the arguments
    and from the function in the environment the body left, is the
    fingerprint of the first call, and the timer has advanced by no more
    than the ttl (by any amount when the ttl is absent), then the next call
    with the same arguments returns the same object and executes nothing:
    over the two calls the body ran exactly once. *)
Theorem second_call_returns_stored (d : Decorated) (args : Args) (v : nat) (t : num)
    (dt : Z) (w w1 : World)
    (Hon : client_caching w = true)
    (Hfirst : wrapped_func d args w = (Ok v, w1))
    (Hexecuted : executions w1 ≠ executions w)
    (Hstable : call_key (hash_funcs (params d)) (func d) args (globals w1)
               = call_key (hash_funcs (params d)) (func d) args (globals w))
    (Httl : bound_of (ttl_arg (params d)) = Some t)
    (Hdt : 0 ≤ dt)
    (Hwithin : within_ttl dt t = true) :
  executions w1 = S (executions w)
  ∧ ∃ w2, wrapped_func d args (advance_clock dt w1) = (Ok v, w2)
          ∧ executions w2 = executions w1
          ∧ heap w2 = heap w1.
Proof.
  rewrite wrapped_func_enabled in Hfirst by done.
  assert (Hon1 : client_caching w1 = true).
  { replace w1 with (snd (get_or_create_cached_value d args w)) by (by rewrite Hfirst).
    by rewrite get_or_create_keeps_switch. }
  destruct (executed_call_post _ _ _ _ _ Hfirst Hexecuted)
    as (r & me & t' & vk & hsh & Hme & Ht & Hkey & Hreg & Hb & Hfind & Hhash & Hexec).
  rewrite Httl in Ht. injection Ht as <-.
  split; [done|].
  rewrite wrapped_func_enabled by done.
  destruct (get_or_create_hit d args (advance_clock dt w1) r me t vk
              (num_add (Num (timer w1)) t) v hsh)
    as (w2 & Hrun & Hexec2 & Hheap2 & _); try done.
  - simpl. by rewrite Hstable.
  - simpl. rewrite Z.max_r by done. by apply stored_link_live.
  - simpl. unfold stored_hash in Hhash.
    destruct (allow_output_mutation (params d)); [by left|right].
    destruct (get_hash _ _) as [h|]; [by exists h|done].
  - by exists w2.
Qed.

(** C10, amended: two decorations of one function that agree on
    max-entries and ttl and whose slot key and call fingerprint come out the
    same, whatever their [allow_output_mutation] and [hash_funcs]: after a
    call through the first has executed the body and returned, and whatever
    state [c] the returned object has been given since, [get_cache] for the
    second returns the tier the first one used and changes nothing, the
    entry is in it with the hash the first policy stored, and a call through
    the second reads that entry under the second policy and does not
    execute the body: with [allow_output_mutation] set it returns the object
    unchecked, otherwise it digests the object with its own table, compares
    with the stored hash, and shows the mutation warning when they differ
    (always, when the stored hash is null). *)
Theorem tier_kept_when_policy_changes (d1 d2 : Decorated) (args : Args) (v : nat)
    (t : num) (c : Content) (w w1 : World)
    (Hon : client_caching w = true)
    (Hfunc : func d2 = func d1)
    (Hslot : cache_key d2 = cache_key d1)
    (Hmax : max_entries (params d2) = max_entries (params d1))
    (Hsamettl : ttl_arg (params d2) = ttl_arg (params d1))
    (Hfirst : wrapped_func d1 args w = (Ok v, w1))
    (Hexecuted : executions w1 ≠ executions w)
    (Hkey : call_key (hash_funcs (params d2)) (func d2) args (globals w1)
            = call_key (hash_funcs (params d1)) (func d1) args (globals w))
    (Httl : bound_of (ttl_arg (params d1)) = Some t)
    (Hlive : within_ttl 0 t = true) :
  ∃ r vk expire hsh,
    function_caches w1 !! cache_key d1 = Some r
    ∧ get_cache (cache_key d2) (max_entries (params d2)) (ttl_arg (params d2))
        (mutate v c w1)
      = (Ok r, mutate v c w1)
    ∧ find_link vk (links (tiers w1 !!! r)) = Some (expire, mkCacheEntry v hsh)
    ∧ stored_hash (allow_output_mutation (params d1)) (hash_funcs (params d1))
        (heap w1 !!! v) = Ok hsh
    ∧ (allow_output_mutation (params d2) = true →
       wrapped_func d2 args (mutate v c w1) = (Ok v, after_getitem r vk (mutate v c w1)))
    ∧ (∀ h, allow_output_mutation (params d2) = false →
         get_hash (hash_funcs (params d2)) c = Ok h →
         wrapped_func d2 args (mutate v c w1)
         = (Ok v,
            if bool_decide (Some h = hsh) then after_getitem r vk (mutate v c w1)
            else set_warnings (warnings w1 ++ [_get_mutated_output_error_message])
                   (after_getitem r vk (mutate v c w1)))).
Proof.
  rewrite wrapped_func_enabled in Hfirst by done.
  assert (Hon1 : client_caching w1 = true).
  { replace w1 with (snd (get_or_create_cached_value d1 args w)) by (by rewrite Hfirst).
    by rewrite get_or_create_keeps_switch. }
  pose proof (executed_call_object _ _ _ _ _ Hfirst Hexecuted) as Hobject.
  destruct (executed_call_post _ _ _ _ _ Hfirst Hexecuted)
    as (r & me & t' & vk & hsh & Hme & Ht & Hvk & Hreg & Hb & Hfind & Hstored & Hexec).
  rewrite Httl in Ht. injection Ht as <-.
  exists r, vk, (num_add (Num (timer w1)) t), hsh.
  split; [done|]. split.
  { apply (get_cache_existing _ _ _ me t); by rewrite ?Hmax, ?Hsamettl, ?Hslot. }
  split; [done|]. split; [done|].
  destruct (get_or_create_hit_run d2 args (mutate v c w1) r me t vk
              (num_add (Num (timer w1)) t) (mkCacheEntry v hsh))
    as [Hallowed Hchecked]; rewrite ?Hmax, ?Hsamettl, ?Hslot; try done.
  - simpl. by rewrite Hkey.
  - pose proof (stored_link_live (timer w1) 0 t (Z.le_refl 0) Hlive) as Hl.
    by rewrite Z.add_0_r in Hl.
  - split.
    + intros Hflag. rewrite wrapped_func_enabled by done. by apply Hallowed.
    + intros h Hflag Hhash. rewrite wrapped_func_enabled by done.
      apply Hchecked; [done|]. simpl value. by rewrite mutate_object.
Qed.

End CallTheorems.

Section FailedPersist.
Context `{Host}.

(** C3, amended: a call with [persist=True] misses in both tiers, the
    function body returns, the value is stored in the memory tier, and
    writing it to disk raises [util.Error] or [struct.error]: the call does
    not return the value but raises the [CacheError] made from that error;
    the body has run once and the memory tier keeps the entry for the
    computed object (the memory write is not rolled back). *)
Theorem failed_persist_raises (d : Decorated) (args : Args) (w w1 : World) (r : nat)
    (vk : string) (c : Content) (g : Env) (hsh : option string) (e : Exn)
    (left_file : bool)
    (Hon : client_caching w = true)
    (Hcounters : nonneg_counters (_cache_info w))
    (Hpersist : persist (params d) = true)
    (Htier : get_cache (cache_key d) (max_entries (params d)) (ttl_arg (params d)) w
             = (Ok r, w1))
    (Hkey : call_key (hash_funcs (params d)) (func d) args (globals w) = Ok vk)
    (Hmiss : TTLCache_contains (tiers w1 !!! r) vk (timer w) = false)
    (Hnofile : files w !! cache_path vk = None)
    (Hbody : func_call (func d) args (globals w) (executions w) = (Ok c, g))
    (Hhash : stored_hash (allow_output_mutation (params d)) (hash_funcs (params d)) c
             = Ok hsh)
    (Hsize : num_ltb (maxsize (tiers w1 !!! r)) (Num 1) = false)
    (Hfail : disk_write (cache_path vk) c = WriteRaised e left_file)
    (Hclass : (∃ m, e = UtilError m) ∨ (∃ m, e = StructError m)) :
  ∃ w', wrapped_func d args w
        = (Raise (CacheError ("Unable to write to cache: " +:+ exn_str e)), w')
        ∧ executions w' = S (executions w)
        ∧ heap w' = heap w ++ [c]
        ∧ find_link vk (links (tiers w' !!! r))
          = Some (num_add (Num (timer w)) (ttl (tiers w1 !!! r)),
                  mkCacheEntry (length (heap w)) hsh)
        ∧ warnings w' = warnings w.
Proof.
  destruct (get_cache_rest _ _ _ _ _ _ Htier)
    as (Hheap1 & Hfiles1 & Htimer1 & Hexec1 & Hinfo1 & Hwarn1 & _).
  pose proof (get_cache_globals _ _ _ _ _ _ Htier) as Hglobals1.
  destruct (get_cache_ok _ _ _ _ _ _ Htier) as (me & t & _ & _ & _ & Hb).
  destruct (tier_bounds_lookup _ _ _ _ Hb) as (Hlen & _).
  rewrite wrapped_func_enabled, get_or_create_steps, Htier, Hglobals1, Hkey by done.
  destruct (_read_from_cache_miss r vk (persist (params d))
              (allow_output_mutation (params d)) (hash_funcs (params d)) w1)
    as [m ->]; [by rewrite Htimer1|by rewrite Hfiles1|].
  rewrite (recompute_returns d args w1 c g) by (by rewrite ?Hexec1, ?Hinfo1, ?Hglobals1).
  set (w3 := set_heap (heap w1 ++ [c])
               (set_globals g (set_executions (S (executions w1)) w1))).
  assert (Hobject : heap w3 !!! length (heap w1) = c)
    by (simpl; by rewrite list_lookup_total_middle).
  unfold _write_to_cache. unfold_m.
  rewrite (_write_to_mem_cache_ok r vk (length (heap w1))
             (allow_output_mutation (params d)) (hash_funcs (params d)) w3 hsh)
    by (by rewrite ?Hobject).
  rewrite Hpersist.
  set (w4 := after_setitem r vk (mkCacheEntry (length (heap w1)) hsh) w3).
  pose proof (_write_to_disk_cache_raises vk (length (heap w1)) w4 e left_file) as Hraise.
  pose proof (_write_to_disk_cache_frame tiers (λ _ _, eq_refl) vk (length (heap w1)) w4)
    as Htiers5.
  pose proof (_write_to_disk_cache_frame heap (λ _ _, eq_refl) vk (length (heap w1)) w4)
    as Hheap5.
  pose proof (_write_to_disk_cache_frame executions (λ _ _, eq_refl) vk
                (length (heap w1)) w4) as Hexec5.
  pose proof (_write_to_disk_cache_frame warnings (λ _ _, eq_refl) vk
                (length (heap w1)) w4) as Hwarn5.
  destruct (_write_to_disk_cache vk (length (heap w1)) w4) as [res w5].
  cbn [fst snd] in *.
  rewrite Hraise; [|change (heap w4) with (heap w3); by rewrite Hobject|done].
  exists w5. split; [done|].
  destruct (after_setitem_stored r vk (mkCacheEntry (length (heap w1)) hsh) w3 0
              Hlen Hsize) as (_ & _ & Hfind & _).
  fold w4 in Hfind.
  rewrite Hexec5, Hheap5, Htiers5, Hwarn5, Hfind.
  subst w4 w3. simpl. by rewrite Hexec1, Hheap1, Hwarn1, Htimer1.
Qed.

End FailedPersist.

(** C3 as stated fails: [double(-3)] with [persist=True] computes [[-6]],
    which cannot be packed; the call raises [CacheError] instead of
    returning the list, and no warning is shown. *)
Lemma failed_persist_counterexample :
  fst (wrapped_func (demo_decorated Double (demo_params true false PyNone PyNone))
         (-3) (@World_init demo_host true))
  = Raise (CacheError "Unable to write to cache: argument out of range")
  ∧ executions (snd (wrapped_func
                       (demo_decorated Double (demo_params true false PyNone PyNone))
                       (-3) (@World_init demo_host true))) = 1%nat
  ∧ warnings (snd (wrapped_func
                     (demo_decorated Double (demo_params true false PyNone PyNone))
                     (-3) (@World_init demo_host true))) = [].
Proof. vm_compute. done. Qed.

Lemma failed_persist_raises_witness :
  ∃ w', wrapped_func (demo_decorated Double (demo_params true false PyNone PyNone))
          (-3) (@World_init demo_host true)
        = (Raise (CacheError "Unable to write to cache: argument out of range"), w')
        ∧ executions w' = 1%nat
        ∧ heap w' = [[-6]]
        ∧ find_link "app.double(-3)" (links (tiers w' !!! 0%nat))
          = Some (PosInf, mkCacheEntry 0 (Some "-6,"%string))
        ∧ warnings w' = [].
Proof.
  apply (failed_persist_raises (H:=demo_host)
           (demo_decorated Double (demo_params true false PyNone PyNone)) (-3)
           (@World_init demo_host true)
           (snd (@get_cache demo_host "app.double" PyNone PyNone
                   (@World_init demo_host true)))
           0 "app.double(-3)" [-6] 0 (Some "-6,"%string)
           (StructError "argument out of range") true);
    try reflexivity.
  - split; simpl; lia.
  - right. by eexists.
Defined.

(** C1 as stated fails, in two ways.  [tally] changes the global its code
    refers to, so the fingerprint hashed at the second call is another one:
    the second of two consecutive calls runs the body again.  And with
    [ttl=5] the entry written by the first call of [double] has expired when
    the second call comes six ticks later.  No cache was cleared in
    between. *)
Lemma second_call_counterexample :
  (fst (wrapped_func (demo_decorated Tally default_params) 3 (@World_init demo_host true))
   = Ok 0%nat
   ∧ executions
       (snd (wrapped_func (demo_decorated Tally default_params) 3
               (@World_init demo_host true))) = 1%nat
   ∧ executions
       (snd (wrapped_func (demo_decorated Tally default_params) 3
               (snd (wrapped_func (demo_decorated Tally default_params) 3
                       (@World_init demo_host true))))) = 2%nat)
  ∧ (fst (wrapped_func
            (demo_decorated Double (demo_params false false PyNone (PyNumber (Num 5))))
            3 (@World_init demo_host true)) = Ok 0%nat
     ∧ executions
         (snd (wrapped_func
                 (demo_decorated Double (demo_params false false PyNone (PyNumber (Num 5))))
                 3 (@World_init demo_host true))) = 1%nat
     ∧ executions
         (snd (wrapped_func
                 (demo_decorated Double (demo_params false false PyNone (PyNumber (Num 5))))
                 3
                 (advance_clock 6
                    (snd (wrapped_func
                            (demo_decorated Double
                               (demo_params false false PyNone (PyNumber (Num 5))))
                            3 (@World_init demo_host true)))))) = 2%nat).
Proof. vm_compute. done. Qed.

(** [stamp] returns the number of the execution, so a second execution
    would return another value; its code refers to no global, so its
    fingerprint stays, and the second call returns the stored object. *)
Lemma second_call_returns_stored_witness :
  executions (snd (wrapped_func (demo_decorated Stamp default_params) 3
                     (@World_init demo_host true)))
  = S (executions (@World_init demo_host true))
  ∧ ∃ w2, wrapped_func (demo_decorated Stamp default_params) 3
            (advance_clock 1000
               (snd (wrapped_func (demo_decorated Stamp default_params) 3
                       (@World_init demo_host true))))
          = (Ok 0%nat, w2)
          ∧ executions w2
            = executions (snd (wrapped_func (demo_decorated Stamp default_params) 3
                                 (@World_init demo_host true)))
          ∧ heap w2
            = heap (snd (wrapped_func (demo_decorated Stamp default_params) 3
                           (@World_init demo_host true))).
Proof.
  apply (second_call_returns_stored (H:=demo_host)
           (demo_decorated Stamp default_params) 3 0 PosInf 1000
           (@World_init demo_host true)
           (snd (wrapped_func (demo_decorated Stamp default_params) 3
                   (@World_init demo_host true))));
    try (vm_compute; reflexivity); try lia; vm_compute; lia.
Defined.

(** [double] is decorated with [allow_output_mutation=True], called, and
    decorated again with [allow_output_mutation=False]: the entry, stored
    without a hash, is read by the second wrapper, which digests the list,
    finds no equal stored hash and shows the mutation warning although the
    list is as it was returned. *)
Lemma tier_kept_when_policy_changes_witness :
  ∃ r vk expire hsh,
    function_caches (demo_cached_world true)
      !! cache_key (demo_decorated Double (demo_params false true PyNone PyNone)) = Some r
    ∧ get_cache (cache_key (demo_decorated Double default_params))
        (max_entries (params (demo_decorated Double default_params)))
        (ttl_arg (params (demo_decorated Double default_params)))
        (@mutate demo_host 0 [6] (demo_cached_world true))
      = (Ok r, @mutate demo_host 0 [6] (demo_cached_world true))
    ∧ find_link vk (links (tiers (demo_cached_world true) !!! r))
      = Some (expire, mkCacheEntry 0 hsh)
    ∧ stored_hash
        (allow_output_mutation
           (params (demo_decorated Double (demo_params false true PyNone PyNone))))
        (hash_funcs (params (demo_decorated Double (demo_params false true PyNone PyNone))))
        (heap (demo_cached_world true) !!! 0%nat) = Ok hsh
    ∧ (allow_output_mutation (params (demo_decorated Double default_params)) = true →
       wrapped_func (demo_decorated Double default_params) 3
         (@mutate demo_host 0 [6] (demo_cached_world true))
       = (Ok 0%nat, after_getitem r vk (@mutate demo_host 0 [6] (demo_cached_world true))))
    ∧ (∀ h, allow_output_mutation (params (demo_decorated Double default_params)) = false →
         get_hash (hash_funcs (params (demo_decorated Double default_params))) [6] = Ok h →
         wrapped_func (demo_decorated Double default_params) 3
           (@mutate demo_host 0 [6] (demo_cached_world true))
         = (Ok 0%nat,
            if bool_decide (Some h = hsh)
            then after_getitem r vk (@mutate demo_host 0 [6] (demo_cached_world true))
            else set_warnings
                   (warnings (demo_cached_world true) ++ [_get_mutated_output_error_message])
                   (after_getitem r vk (@mutate demo_host 0 [6] (demo_cached_world true))))).
Proof.
  apply (tier_kept_when_policy_changes (H:=demo_host)
           (demo_decorated Double (demo_params false true PyNone PyNone))
           (demo_decorated Double default_params) 3 0 PosInf [6]
           (@World_init demo_host true) (demo_cached_world true));
    try (vm_compute; reflexivity); vm_compute; lia.
Defined.

(** C10 as stated fails for the hash-override table: [scaled] refers to the
    global [n], which the hashers digest with the table of the decoration.
    Decorated without a table, called, and decorated again with a table that
    maps the type of [n] to a function of its own, max-entries and ttl
    unchanged, the function has another slot key: [get_cache] makes a second
    tier for it, empty, and the call through the second wrapper does not
    read the entry the first one wrote but runs the body again. *)
Lemma policy_change_counterexample :
  cache (H:=table_host) Scaled (table_params false None) (@World_init table_host true)
  = (Ok (table_decorated Scaled (table_params false None)), @World_init table_host true)
  ∧ fst (wrapped_func (table_decorated Scaled (table_params false None)) 3
           (@World_init table_host true)) = Ok 0%nat
  ∧ executions table_called_world = 1%nat
  ∧ cache (H:=table_host) Scaled (table_params false (Some "n"%string)) table_called_world
    = (Ok (table_decorated Scaled (table_params false (Some "n"%string))),
       table_called_world)
  ∧ function_caches table_called_world
      !! cache_key (table_decorated Scaled (table_params false None)) = Some 0%nat
  ∧ fst (get_cache (cache_key (table_decorated Scaled (table_params false (Some "n"%string))))
           PyNone PyNone table_called_world) = Ok 1%nat
  ∧ links (tiers (snd (get_cache
                         (cache_key (table_decorated Scaled
                                       (table_params false (Some "n"%string))))
                         PyNone PyNone table_called_world)) !!! 1%nat) = []
  ∧ executions
      (snd (wrapped_func (table_decorated Scaled (table_params false (Some "n"%string))) 3
              table_called_world)) = 2%nat.
Proof. repeat (split; [vm_compute; reflexivity|]). vm_compute; reflexivity. Qed.

(** Read under the second policy, the entry that has no hash brings the
    mutation warning although nothing was mutated. *)
Example policy_change_warns :
  warnings (snd (wrapped_func (demo_decorated Double default_params) 3
                   (demo_cached_world true)))
  = [_get_mutated_output_error_message].
Proof. reflexivity. Qed.

(** ** The decorated [double] of the demo script, end to end *)

(** [f(3)] twice: the second call returns the list built by the first and
    the body has run once. *)
Example double_called_twice :
  wrapped_func (demo_decorated Double default_params) 3 (demo_cached_world false)
  = (Ok 0%nat, demo_cached_world false)
  ∧ heap (demo_cached_world false) = [[6]]
  ∧ executions (demo_cached_world false) = 1%nat.
Proof. vm_compute. done. Qed.

(** [f(4)] afterwards has its own fingerprint: the body runs and returns a
    new list. *)
Example double_other_argument :
  fst (wrapped_func (demo_decorated Double default_params) 4 (demo_cached_world false))
  = Ok 1%nat
  ∧ heap (snd (wrapped_func (demo_decorated Double default_params) 4
                 (demo_cached_world false))) = [[6]; [8]]
  ∧ executions (snd (wrapped_func (demo_decorated Double default_params) 4
                       (demo_cached_world false))) = 2%nat.
Proof. vm_compute. done. Qed.

(** With caching globally disabled every call runs the body. *)
Example caching_disabled :
  executions
    (snd (wrapped_func (demo_decorated Double default_params) 3
            (snd (wrapped_func (demo_decorated Double default_params) 3
                    (@World_init demo_host false))))) = 2%nat.
Proof. reflexivity. Qed.

(** A function that raises stores nothing. *)
Example failing_function_not_cached :
  fst (wrapped_func (demo_decorated Failing default_params) 3 (@World_init demo_host true))
  = Raise (UserError 0)
  ∧ links (tiers (snd (wrapped_func (demo_decorated Failing default_params) 3
                         (@World_init demo_host true))) !!! 0%nat) = [].
Proof. vm_compute. done. Qed.

(** * Further properties of the code *)

Section MoreSteps.
Context `{Host}.

(** The miss block runs the function body once, whatever comes of it. *)
Lemma recompute_executes d args w :
  executions (snd (recompute d args w)) = S (executions w).
Proof.
  unfold recompute. rewrite calling_unfold.
  destruct (suppress_st_warning (params d)); [rewrite suppress_unfold|];
    unfold call_func; simpl;
    by destruct (func_call (func d) args (globals w) (executions w)) as [[c|e] g].
Qed.

Lemma recompute_raises d args w e g :
  func_call (func d) args (globals w) (executions w) = (Raise e, g) →
  nonneg_counters (_cache_info w) →
  recompute d args w = (Raise e, set_globals g (set_executions (S (executions w)) w)).
Proof.
  intros Hbody [Hwithin Hsuppress]. unfold recompute. rewrite calling_unfold.
  destruct (suppress_st_warning (params d)); [rewrite suppress_unfold|];
    unfold call_func; simpl; rewrite Hbody; simpl.
  - replace (0 <=? _ + 1 + -1) with true by (symmetry; apply Z.leb_le; lia).
    destruct w as [? ? ? ? ? [a b] ? ? ? ?]. simpl.
    unfold set_cache_info, set_executions, set_globals. simpl. do 3 f_equal; lia.
  - destruct w as [? ? ? ? ? [a b] ? ? ? ?]. simpl.
    unfold set_cache_info, set_executions, set_globals. simpl. do 3 f_equal; lia.
Qed.

(** [get_cache] makes a new tier when the slot is empty or holds a tier with
    other bounds. *)
Lemma get_cache_created key ma ta me t w :
  bound_of ma = Some me → bound_of ta = Some t →
  (function_caches w !! key = None
   ∨ ∃ r me0 t0, function_caches w !! key = Some r
                 ∧ tier_bounds w !! r = Some (me0, t0) ∧ (me0, t0) ≠ (me, t)) →
  get_cache key ma ta w
  = (Ok (length (tiers w)),
     set_function_caches (<[key := length (tiers w)]> (function_caches w))
       (set_tiers (tiers w ++ [TTLCache_new me t]) w)).
Proof.
  intros Hme Ht Hslot. rewrite (get_cache_numeric _ _ _ _ _ _ Hme Ht).
  unfold get_cache. simpl.
  destruct Hslot as [->|(r & me0 & t0 & -> & Hb & Hdiff)]; [done|].
  destruct (tier_bounds_lookup _ _ _ _ Hb) as (_ & -> & Hm & Htt).
  destruct (bool_decide (ttl (tiers w !!! r) = t)) eqn:Et;
    destruct (bool_decide (maxsize (tiers w !!! r) = me)) eqn:Em; simpl; try done.
  apply bool_decide_eq_true_1 in Et, Em. congruence.
Qed.

(** A call that finds its key in neither tier runs the body once. *)
Lemma miss_executes d args w r w1 vk :
  get_cache (cache_key d) (max_entries (params d)) (ttl_arg (params d)) w = (Ok r, w1) →
  call_key (hash_funcs (params d)) (func d) args (globals w) = Ok vk →
  TTLCache_contains (tiers w1 !!! r) vk (timer w1) = false →
  (persist (params d) = true → files w1 !! cache_path vk = None) →
  executions (snd (get_or_create_cached_value d args w)) = S (executions w).
Proof.
  intros Htier Hkey Hmiss Hfile.
  destruct (get_cache_rest _ _ _ _ _ _ Htier) as (_ & _ & _ & Hexec1 & _).
  rewrite get_or_create_steps, Htier, (get_cache_globals _ _ _ _ _ _ Htier), Hkey.
  destruct (_read_from_cache_miss r vk (persist (params d))
              (allow_output_mutation (params d)) (hash_funcs (params d)) w1 Hmiss Hfile)
    as [m ->].
  pose proof (recompute_executes d args w1) as Hexec3.
  destruct (recompute d args w1) as [[rv|e] w3]; simpl in Hexec3 |- *;
    [|by rewrite Hexec3, Hexec1].
  pose proof (_write_to_cache_frame executions (λ _ _ _ _, eq_refl) (λ _ _, eq_refl)
    r vk rv (persist (params d)) (allow_output_mutation (params d))
    (hash_funcs (params d)) w3) as Hexec4.
  destruct (_write_to_cache r vk rv _ _ _ w3) as [[[]|e] w4]; simpl in *;
    by rewrite Hexec4, Hexec3, Hexec1.
Qed.

(** The steps of a call that ran the body and returned. *)
Lemma executed_call_inv d args w v w' :
  get_or_create_cached_value d args w = (Ok v, w') →
  executions w' ≠ executions w →
  ∃ r w1 vk m w2 w3,
    get_cache (cache_key d) (max_entries (params d)) (ttl_arg (params d)) w = (Ok r, w1)
    ∧ call_key (hash_funcs (params d)) (func d) args (globals w) = Ok vk
    ∧ _read_from_cache r vk (persist (params d)) (allow_output_mutation (params d))
        (hash_funcs (params d)) w1 = (Raise (CacheKeyNotFoundError m), w2)
    ∧ recompute d args w2 = (Ok v, w3)
    ∧ _write_to_cache r vk v (persist (params d)) (allow_output_mutation (params d))
        (hash_funcs (params d)) w3 = (Ok tt, w').
Proof.
  rewrite get_or_create_steps.
  destruct (get_cache _ _ _ w) as [[r|e] w1] eqn:Hgc; [|done].
  rewrite (get_cache_globals _ _ _ _ _ _ Hgc).
  destruct (call_key _ _ _ _) as [vk|e] eqn:Hkey; [|done].
  destruct (_read_from_cache r vk _ _ _ w1) as [[v0|e] w2] eqn:Hread.
  { intros [= <- <-] Hexec. exfalso. apply Hexec.
    replace w2 with (snd (_read_from_cache r vk (persist (params d))
      (allow_output_mutation (params d)) (hash_funcs (params d)) w1))
      by (by rewrite Hread).
    rewrite _read_from_cache_frame by done.
    by destruct (get_cache_rest _ _ _ _ _ _ Hgc) as (_ & _ & _ & -> & _). }
  destruct e; try done.
  destruct (recompute d args w2) as [[rv|e] w3] eqn:Hcall; [|done].
  destruct (_write_to_cache r vk rv _ _ _ w3) as [[[]|e] w4] eqn:Hwrite; [|done].
  intros [= <- <-] _. by exists r, w1, vk, msg, w2, w3.
Qed.

Lemma _write_to_disk_cache_ok key v w :
  disk_write (cache_path key) (heap w !!! v) = Written →
  _write_to_disk_cache key v w
  = (Ok tt, set_files (<[cache_path key := Pickled (heap w !!! v)]> (files w)) w).
Proof.
  intros Hok. unfold _write_to_disk_cache, try_except, streamlit_write_pickle.
  by rewrite Hok.
Qed.

Lemma _write_to_disk_cache_inv key v w w' :
  _write_to_disk_cache key v w = (Ok tt, w') →
  disk_write (cache_path key) (heap w !!! v) = Written
  ∧ w' = set_files (<[cache_path key := Pickled (heap w !!! v)]> (files w)) w.
Proof.
  unfold _write_to_disk_cache, try_except, streamlit_write_pickle.
  destruct (disk_write (cache_path key) (heap w !!! v)) as [|e left_file].
  - by intros [= <-].
  - unfold_m. unfold os_remove.
    destruct e; try done; repeat case_match; done.
Qed.

(** A memory miss answered by the disk: the loaded object is stored in the
    memory tier and returned. *)
Lemma _read_from_cache_disk_hit r key aom hf w c hsh :
  TTLCache_contains (tiers w !!! r) key (timer w) = false →
  files w !! cache_path key = Some (Pickled c) →
  stored_hash aom hf c = Ok hsh →
  num_ltb (maxsize (tiers w !!! r)) (Num 1) = false →
  _read_from_cache r key true aom hf w
  = (Ok (length (heap w)),
     after_setitem r key (mkCacheEntry (length (heap w)) hsh)
       (set_heap (heap w ++ [c]) w)).
Proof.
  intros Hmiss Hfile Hhash Hsize. unfold _read_from_cache, try_except.
  rewrite _read_from_mem_cache_absent by done.
  unfold mbind, M_bind, bind.
  rewrite (_read_from_disk_cache_hit _ _ _ Hfile).
  assert (Hloaded : stored_hash aom hf
            (heap (set_heap (heap w ++ [c]) w) !!! length (heap w)) = Ok hsh).
  { simpl. by rewrite list_lookup_total_middle. }
  by rewrite (_write_to_mem_cache_ok _ _ _ _ _ _ hsh Hloaded).
Qed.

End MoreSteps.

Section Invalidation.
Context `{Host}.

(** After [_clear_mem_cache] the registry is empty while the tier objects
    and the files stay as they are; a call of a function decorated without
    [persist] then finds a new, empty tier and runs the body. *)
Theorem clear_then_call_recomputes (d : Decorated) (args : Args) (w : World)
    (me t : num) (vk : string)
    (Hon : client_caching w = true)
    (Hpersist : persist (params d) = false)
    (Hme : bound_of (max_entries (params d)) = Some me)
    (Ht : bound_of (ttl_arg (params d)) = Some t)
    (Hkey : call_key (hash_funcs (params d)) (func d) args (globals w) = Ok vk) :
  function_caches (snd (_clear_mem_cache w)) = ∅
  ∧ tiers (snd (_clear_mem_cache w)) = tiers w
  ∧ files (snd (_clear_mem_cache w)) = files w
  ∧ executions (snd (wrapped_func d args (snd (_clear_mem_cache w))))
    = S (executions w).
Proof.
  split; [done|]. split; [done|]. split; [done|].
  rewrite wrapped_func_enabled by done.
  erewrite miss_executes; [done| |exact Hkey| |by rewrite Hpersist].
  - apply (get_cache_created _ _ _ me t); [done|done|]. left. apply lookup_empty.
  - simpl. by rewrite list_lookup_total_middle.
Qed.

(** A decoration of the same function with another max-entries or ttl gets
    a new, empty tier object: after a call through the first decoration
    stored its entry, the call through the second one, made without
    [persist], runs the body again. *)
Theorem changed_bounds_reset_tier (d1 d2 : Decorated) (args : Args) (v : nat)
    (me2 t2 : num) (vk2 : string) (w w1 : World)
    (Hon : client_caching w = true)
    (Hslot : cache_key d2 = cache_key d1)
    (Hpersist : persist (params d2) = false)
    (Hfirst : wrapped_func d1 args w = (Ok v, w1))
    (Hexecuted : executions w1 ≠ executions w)
    (Hme2 : bound_of (max_entries (params d2)) = Some me2)
    (Ht2 : bound_of (ttl_arg (params d2)) = Some t2)
    (Hdiff : bound_of (max_entries (params d1)) ≠ Some me2
             ∨ bound_of (ttl_arg (params d1)) ≠ Some t2)
    (Hkey2 : call_key (hash_funcs (params d2)) (func d2) args (globals w1) = Ok vk2) :
  ∃ r w2, function_caches w1 !! cache_key d1 = Some r
          ∧ (r < length (tiers w1))%nat
          ∧ get_cache (cache_key d2) (max_entries (params d2)) (ttl_arg (params d2)) w1
            = (Ok (length (tiers w1)), w2)
          ∧ tiers w2 !! length (tiers w1) = Some (mkTTLCache me2 t2 [])
          ∧ tiers w2 !! r = tiers w1 !! r
          ∧ executions (snd (wrapped_func d2 args w1)) = S (executions w1).
Proof.
  rewrite wrapped_func_enabled in Hfirst by done.
  assert (Hon1 : client_caching w1 = true).
  { replace w1 with (snd (get_or_create_cached_value d1 args w)) by (by rewrite Hfirst).
    by rewrite get_or_create_keeps_switch. }
  destruct (executed_call_post _ _ _ _ _ Hfirst Hexecuted)
    as (r & me & t & vk & hsh & Hme & Ht & _ & Hreg & Hb & _).
  destruct (tier_bounds_lookup _ _ _ _ Hb) as (Hlen & _).
  assert (Hne : (me, t) ≠ (me2, t2)).
  { intros [= -> ->]. destruct Hdiff; congruence. }
  assert (Hcreated : get_cache (cache_key d2) (max_entries (params d2))
            (ttl_arg (params d2)) w1
          = (Ok (length (tiers w1)),
             set_function_caches (<[cache_key d2 := length (tiers w1)]> (function_caches w1))
               (set_tiers (tiers w1 ++ [TTLCache_new me2 t2]) w1))).
  { apply get_cache_created; [done|done|]. right. rewrite Hslot. by exists r, me, t. }
  exists r. eexists. split; [done|]. split; [done|]. split; [exact Hcreated|].
  simpl. split; [by rewrite lookup_app_r, Nat.sub_diag by lia|].
  split; [by rewrite lookup_app_l|].
  rewrite wrapped_func_enabled by done.
  erewrite miss_executes; [done|exact Hcreated|exact Hkey2| |by rewrite Hpersist].
  simpl. by rewrite list_lookup_total_middle.
Qed.

(** Once the timer has advanced beyond a finite ttl, the entry a call
    stored is absent: the next call with the same arguments, made without
    [persist], runs the body again.  The fingerprint hashed at the next call
    is the one of the first call, or one the tier holds nothing under. *)
Theorem expired_entry_recomputed (d : Decorated) (args : Args) (v : nat) (z dt : Z)
    (vk2 : string) (w w1 : World)
    (Hon : client_caching w = true)
    (Hpersist : persist (params d) = false)
    (Hfirst : wrapped_func d args w = (Ok v, w1))
    (Hexecuted : executions w1 ≠ executions w)
    (Httl : bound_of (ttl_arg (params d)) = Some (Num z))
    (Hlate : z < dt)
    (Hkey2 : call_key (hash_funcs (params d)) (func d) args (globals w1) = Ok vk2)
    (Hfresh : call_key (hash_funcs (params d)) (func d) args (globals w) = Ok vk2
              ∨ ∀ r, function_caches w1 !! cache_key d = Some r →
                     find_link vk2 (links (tiers w1 !!! r)) = None) :
  executions (snd (wrapped_func d args (advance_clock dt w1))) = S (executions w1).
Proof.
  rewrite wrapped_func_enabled in Hfirst by done.
  assert (Hon1 : client_caching w1 = true).
  { replace w1 with (snd (get_or_create_cached_value d args w)) by (by rewrite Hfirst).
    by rewrite get_or_create_keeps_switch. }
  destruct (executed_call_post _ _ _ _ _ Hfirst Hexecuted)
    as (r & me & t & vk & hsh & Hme & Ht & Hkey & Hreg & Hb & Hfind & _).
  rewrite Httl in Ht. injection Ht as <-.
  rewrite wrapped_func_enabled by done.
  erewrite miss_executes; [done| |exact Hkey2| |by rewrite Hpersist].
  - by apply (get_cache_existing _ _ _ me (Num z)).
  - unfold TTLCache_contains. simpl.
    destruct Hfresh as [Hsame|Hnone].
    + rewrite Hkey in Hsame. injection Hsame as <-. rewrite Hfind. simpl.
      replace (timer w1 + z <? timer w1 + Z.max 0 dt) with true; [done|].
      symmetry. apply Z.ltb_lt. lia.
    + by rewrite (Hnone r Hreg).
Qed.

(** One call runs the function body once at most. *)
Theorem call_executes_at_most_once (d : Decorated) (args : Args) (w : World) :
  executions (snd (wrapped_func d args w)) = executions w
  ∨ executions (snd (wrapped_func d args w)) = S (executions w).
Proof.
  destruct (client_caching w) eqn:Hon.
  - rewrite wrapped_func_enabled by done. rewrite get_or_create_steps.
    destruct (get_cache _ _ _ w) as [[r|e] w1] eqn:Hgc;
      destruct (get_cache_rest _ _ _ _ _ _ Hgc) as (_ & _ & _ & Hexec1 & _);
      [|by left].
    destruct (call_key _ _ _ _) as [vk|e]; [|by left].
    pose proof (_read_from_cache_frame executions (λ _ _, eq_refl) (λ _ _ _, eq_refl)
      (λ _ _ _ _, eq_refl) (λ _ _, eq_refl) r vk (persist (params d))
      (allow_output_mutation (params d)) (hash_funcs (params d)) w1) as Hexec2.
    destruct (_read_from_cache r vk _ _ _ w1) as [[v|e] w2]; simpl in Hexec2;
      [left; simpl; congruence|].
    destruct e; try (left; simpl; congruence).
    pose proof (recompute_executes d args w2) as Hexec3.
    destruct (recompute d args w2) as [[rv|e] w3]; simpl in Hexec3;
      [|right; simpl; congruence].
    pose proof (_write_to_cache_frame executions (λ _ _ _ _, eq_refl) (λ _ _, eq_refl)
      r vk rv (persist (params d)) (allow_output_mutation (params d))
      (hash_funcs (params d)) w3) as Hexec4.
    destruct (_write_to_cache r vk rv _ _ _ w3) as [[[]|e] w4]; simpl in *;
      right; congruence.
  - right. unfold wrapped_func. rewrite Hon. simpl. unfold call_func.
    by destruct (func_call (func d) args (globals w) (executions w)) as [[c|e] g].
Qed.

End Invalidation.

Section DiskUse.
Context `{Host}.

(** The cache directory is written only by a call that ran the function
    body with [persist=True]: a call decorated without [persist], and any
    call that did not run the body, leaves every file as it is. *)
Theorem disk_written_only_on_persisted_miss (d : Decorated) (args : Args) (w : World)
    (Hquiet : persist (params d) = false
              ∨ executions (snd (wrapped_func d args w)) = executions w) :
  files (snd (wrapped_func d args w)) = files w.
Proof.
  destruct (client_caching w) eqn:Hon.
  2:{ unfold wrapped_func. rewrite Hon. simpl. by apply call_func_frame. }
  rewrite wrapped_func_enabled in * by done. revert Hquiet.
  rewrite get_or_create_steps.
  destruct (get_cache _ _ _ w) as [[r|e] w1] eqn:Hgc;
    destruct (get_cache_rest _ _ _ _ _ _ Hgc) as (_ & Hfiles1 & _ & Hexec1 & _);
    [|done].
  destruct (call_key _ _ _ _) as [vk|e]; [|done].
  pose proof (_read_from_cache_frame files (λ _ _, eq_refl) (λ _ _ _, eq_refl)
    (λ _ _ _ _, eq_refl) (λ _ _, eq_refl) r vk (persist (params d))
    (allow_output_mutation (params d)) (hash_funcs (params d)) w1) as Hfiles2.
  pose proof (_read_from_cache_frame executions (λ _ _, eq_refl) (λ _ _ _, eq_refl)
    (λ _ _ _ _, eq_refl) (λ _ _, eq_refl) r vk (persist (params d))
    (allow_output_mutation (params d)) (hash_funcs (params d)) w1) as Hexec2.
  destruct (_read_from_cache r vk _ _ _ w1) as [[v|e] w2]; simpl in Hfiles2, Hexec2;
    [simpl; congruence|].
  destruct e; try (simpl; congruence).
  pose proof (recompute_frame files (λ _ _, eq_refl) (λ _ _, eq_refl) (λ _ _, eq_refl)
    (λ _ _, eq_refl) d args w2) as Hfiles3.
  pose proof (recompute_executes d args w2) as Hexec3.
  destruct (recompute d args w2) as [[rv|e] w3]; simpl in Hfiles3, Hexec3.
  2:{ simpl. congruence. }
  pose proof (_write_to_cache_frame executions (λ _ _ _ _, eq_refl) (λ _ _, eq_refl)
    r vk rv (persist (params d)) (allow_output_mutation (params d))
    (hash_funcs (params d)) w3) as Hexec4.
  intros [Hpersist|Hsame].
  - rewrite Hpersist. unfold _write_to_cache. unfold_m.
    pose proof (_write_to_mem_cache_frame files (λ _ _ _ _, eq_refl) r vk rv
      (allow_output_mutation (params d)) (hash_funcs (params d)) w3) as Hfiles4.
    destruct (_write_to_mem_cache r vk rv _ _ w3) as [[[]|e] w4]; simpl in *; congruence.
  - exfalso.
    destruct (_write_to_cache r vk rv _ _ _ w3) as [[[]|e] w4]; simpl in *; lia.
Qed.

(** With caching globally disabled a call is the function call itself: two
    calls run the body twice, no tier and no file is read or written, and
    no error is raised for the decorator's parameters. *)
Theorem disabled_calls_bypass_cache (d : Decorated) (args : Args) (w : World)
    (Hoff : client_caching w = false) :
  fst (wrapped_func d args w)
  = match fst (func_call (func d) args (globals w) (executions w)) with
    | Ok _ => Ok (length (heap w))
    | Raise e => Raise e
    end
  ∧ executions (snd (wrapped_func d args (snd (wrapped_func d args w))))
    = S (S (executions w))
  ∧ function_caches (snd (wrapped_func d args (snd (wrapped_func d args w))))
    = function_caches w
  ∧ tiers (snd (wrapped_func d args (snd (wrapped_func d args w)))) = tiers w
  ∧ files (snd (wrapped_func d args (snd (wrapped_func d args w)))) = files w.
Proof.
  assert (Hrun : ∀ w0, client_caching w0 = false →
            wrapped_func d args w0 = call_func (func d) args w0).
  { intros w0 Hw0. unfold wrapped_func. by rewrite Hw0. }
  assert (Hoff1 : client_caching (snd (call_func (func d) args w)) = false).
  { by rewrite call_func_frame. }
  rewrite !Hrun by (by rewrite ?Hrun). unfold call_func.
  destruct (func_call (func d) args (globals w) (executions w)) as [[c|e] g]; simpl;
    by destruct (func_call (func d) args g (S (executions w))) as [[c'|e'] g'].
Qed.

End DiskUse.

Section FailedMiss.
Context `{Host}.

(** A miss whose function body raises: the call raises that very exception,
    the body has run once, the counters are back and nothing else has
    changed since the tier was looked up, but for what the body did to the
    environment; no entry was stored, so the next call, whose fingerprint
    is hashed in the environment the body left and is in neither tier
    either, runs the body again. *)
Theorem raising_function_stores_nothing (d : Decorated) (args : Args) (w w1 : World)
    (r : nat) (vk vk2 : string) (e : Exn) (g : Env)
    (Hon : client_caching w = true)
    (Hcounters : nonneg_counters (_cache_info w))
    (Htier : get_cache (cache_key d) (max_entries (params d)) (ttl_arg (params d)) w
             = (Ok r, w1))
    (Hkey : call_key (hash_funcs (params d)) (func d) args (globals w) = Ok vk)
    (Hmiss : TTLCache_contains (tiers w1 !!! r) vk (timer w) = false)
    (Hnofile : persist (params d) = true → files w !! cache_path vk = None)
    (Hbody : func_call (func d) args (globals w) (executions w) = (Raise e, g))
    (Hkey2 : call_key (hash_funcs (params d)) (func d) args g = Ok vk2)
    (Hmiss2 : TTLCache_contains (tiers w1 !!! r) vk2 (timer w) = false)
    (Hnofile2 : persist (params d) = true → files w !! cache_path vk2 = None) :
  wrapped_func d args w
  = (Raise e, set_globals g (set_executions (S (executions w)) w1))
  ∧ executions
      (snd (wrapped_func d args (set_globals g (set_executions (S (executions w)) w1))))
    = S (S (executions w)).
Proof.
  destruct (get_cache_rest _ _ _ _ _ _ Htier)
    as (Hheap1 & Hfiles1 & Htimer1 & Hexec1 & Hinfo1 & Hwarn1 & Hon1).
  pose proof (get_cache_globals _ _ _ _ _ _ Htier) as Hglobals1.
  destruct (get_cache_ok _ _ _ _ _ _ Htier) as (me & t & Hme & Ht & Hreg & Hb).
  split.
  - rewrite wrapped_func_enabled, get_or_create_steps, Htier, Hglobals1, Hkey by done.
    destruct (_read_from_cache_miss r vk (persist (params d))
                (allow_output_mutation (params d)) (hash_funcs (params d)) w1)
      as [m ->]; [by rewrite Htimer1|by rewrite Hfiles1|].
    rewrite (recompute_raises d args w1 e g) by (by rewrite ?Hexec1, ?Hinfo1, ?Hglobals1).
    by rewrite Hexec1.
  - rewrite wrapped_func_enabled by (simpl; congruence).
    erewrite miss_executes; [done| |exact Hkey2| |].
    + by apply (get_cache_existing _ _ _ me t).
    + simpl. by rewrite Htimer1.
    + simpl. by rewrite Hfiles1.
Qed.

(** A miss whose result cannot be hashed while mutation detection is on:
    the body has run, the hashing error is what the call raises, and the
    tier holds no entry for the call. *)
Theorem unhashable_result_stores_nothing (d : Decorated) (args : Args) (w w1 : World)
    (r : nat) (vk : string) (c : Content) (g : Env) (x : Exn)
    (Hon : client_caching w = true)
    (Hcounters : nonneg_counters (_cache_info w))
    (Hdetect : allow_output_mutation (params d) = false)
    (Htier : get_cache (cache_key d) (max_entries (params d)) (ttl_arg (params d)) w
             = (Ok r, w1))
    (Hkey : call_key (hash_funcs (params d)) (func d) args (globals w) = Ok vk)
    (Hmiss : TTLCache_contains (tiers w1 !!! r) vk (timer w) = false)
    (Hnofile : persist (params d) = true → files w !! cache_path vk = None)
    (Hbody : func_call (func d) args (globals w) (executions w) = (Ok c, g))
    (Hhash : get_hash (hash_funcs (params d)) c = Raise x) :
  wrapped_func d args w
  = (Raise x,
     set_heap (heap w ++ [c]) (set_globals g (set_executions (S (executions w)) w1)))
  ∧ TTLCache_contains
      (tiers (set_heap (heap w ++ [c])
                (set_globals g (set_executions (S (executions w)) w1))) !!! r)
      vk (timer w) = false.
Proof.
  destruct (get_cache_rest _ _ _ _ _ _ Htier)
    as (Hheap1 & Hfiles1 & Htimer1 & Hexec1 & Hinfo1 & Hwarn1 & Hon1).
  pose proof (get_cache_globals _ _ _ _ _ _ Htier) as Hglobals1.
  split; [|done].
  rewrite wrapped_func_enabled, get_or_create_steps, Htier, Hglobals1, Hkey by done.
  destruct (_read_from_cache_miss r vk (persist (params d))
              (allow_output_mutation (params d)) (hash_funcs (params d)) w1)
    as [m ->]; [by rewrite Htimer1|by rewrite Hfiles1|].
  rewrite (recompute_returns d args w1 c g) by (by rewrite ?Hexec1, ?Hinfo1, ?Hglobals1).
  unfold _write_to_cache. unfold_m. rewrite _write_to_mem_cache_run, Hdetect. simpl.
  rewrite list_lookup_total_middle by done. rewrite Hhash.
  by rewrite Hexec1, Hheap1.
Qed.

(** A miss in memory with [persist=True] and an empty file under the key:
    reading it is an error, which the call raises as [CacheError]; the
    function body is not run and the empty file stays. *)
Theorem unreadable_file_aborts_call (d : Decorated) (args : Args) (w w1 : World)
    (r : nat) (vk : string)
    (Hon : client_caching w = true)
    (Hpersist : persist (params d) = true)
    (Htier : get_cache (cache_key d) (max_entries (params d)) (ttl_arg (params d)) w
             = (Ok r, w1))
    (Hkey : call_key (hash_funcs (params d)) (func d) args (globals w) = Ok vk)
    (Hmiss : TTLCache_contains (tiers w1 !!! r) vk (timer w) = false)
    (Hempty : files w !! cache_path vk = Some ZeroByte) :
  wrapped_func d args w
  = (Raise (CacheError ("Unable to read from cache: Read zero byte file: "
                          +:+ cache_path vk)), w1)
  ∧ executions w1 = executions w
  ∧ files w1 !! cache_path vk = Some ZeroByte.
Proof.
  destruct (get_cache_rest _ _ _ _ _ _ Htier)
    as (Hheap1 & Hfiles1 & Htimer1 & Hexec1 & _).
  split; [|by rewrite Hfiles1].
  rewrite wrapped_func_enabled, get_or_create_steps, Htier,
    (get_cache_globals _ _ _ _ _ _ Htier), Hkey by done.
  unfold _read_from_cache, try_except.
  rewrite _read_from_mem_cache_absent by (by rewrite Htimer1).
  rewrite Hpersist. unfold mbind, M_bind, bind.
  unfold _read_from_disk_cache, try_except, streamlit_read_pickle.
  by rewrite Hfiles1, Hempty.
Qed.

End FailedMiss.

Section RoundTrips.
Context `{Host}.

(** What is written to disk is the state the object has at that moment:
    after a successful write, reading the key builds a new object with that
    state, even if the original object has been changed in between. *)
Theorem disk_round_trip (key : string) (v : nat) (c' : Content) (w : World)
    (Hobject : (v < length (heap w))%nat)
    (Hok : disk_write (cache_path key) (heap w !!! v) = Written) :
  ∃ w1 w2,
    _write_to_disk_cache key v w = (Ok tt, w1)
    ∧ _read_from_disk_cache key (mutate v c' w1) = (Ok (length (heap w)), w2)
    ∧ heap w2 !!! length (heap w) = heap w !!! v
    ∧ heap w2 !!! v = c'.
Proof.
  rewrite (_write_to_disk_cache_ok _ _ _ Hok).
  eexists. eexists. split; [reflexivity|].
  rewrite (_read_from_disk_cache_hit key (heap w !!! v)) by (simpl; apply lookup_insert_eq).
  simpl. rewrite length_insert. split; [done|]. split.
  - cbn [heap set_heap]. by rewrite list_lookup_total_middle by (by rewrite length_insert).
  - cbn [heap set_heap]. rewrite lookup_total_app_l by (by rewrite length_insert).
    by rewrite list_lookup_total_insert_eq.
Qed.

(** An entry written to the memory tier is read back, under the same policy
    and with the object untouched, for as long as the timer stays within
    the ttl; once the timer is beyond a finite ttl the key is not found. *)
Theorem memory_round_trip (mem_cache : nat) (key : string) (v : nat) (aom : bool)
    (hf : HashFuncs) (d : Z) (w w1 : World)
    (Htier : (mem_cache < length (tiers w))%nat)
    (Hwrite : _write_to_mem_cache mem_cache key v aom hf w = (Ok tt, w1))
    (Hd : 0 ≤ d) :
  (within_ttl d (ttl (tiers w !!! mem_cache)) = true →
   fst (_read_from_mem_cache mem_cache key aom hf (advance_clock d w1)) = Ok v)
  ∧ (within_ttl d (ttl (tiers w !!! mem_cache)) = false →
     _read_from_mem_cache mem_cache key aom hf (advance_clock d w1)
     = (Raise (CacheKeyNotFoundError "Key not found in mem cache"), advance_clock d w1)).
Proof.
  destruct (_write_to_mem_cache_inv _ _ _ _ _ _ _ Hwrite) as (hsh & Hhash & Hsize & ->).
  destruct (after_setitem_stored mem_cache key (mkCacheEntry v hsh) w d Htier Hsize)
    as (_ & _ & Hfind & _).
  split; intros Httl.
  - erewrite _read_from_mem_cache_present; [|exact Hfind|].
    + simpl. unfold stored_hash in Hhash. destruct aom; [done|].
      destruct (get_hash hf (heap w !!! v)) as [h|]; [|done].
      injection Hhash as <-. by rewrite bool_decide_eq_true_2.
    + simpl. rewrite Z.max_r by done. by apply stored_link_live.
  - apply _read_from_mem_cache_absent. unfold TTLCache_contains.
    change (tiers (advance_clock d (after_setitem mem_cache key (mkCacheEntry v hsh) w)))
      with (tiers (after_setitem mem_cache key (mkCacheEntry v hsh) w)).
    rewrite Hfind. simpl. rewrite Z.max_r by done.
    destruct (ttl (tiers w !!! mem_cache)) as [z|]; simpl in *; [|done].
    apply Z.leb_gt in Httl.
    replace (timer w + z <? timer w + d) with true; [done|].
    symmetry. apply Z.ltb_lt. lia.
Qed.

(** Reading a mutated entry does not repair it: the entry keeps the hash it
    was stored with, so the next read of the same state warns again. *)
Theorem mutation_warning_repeats (mem_cache : nat) (key : string) (hf : HashFuncs)
    (persisted : bool) (expire : num) (e : CacheEntry) (h : string) (w : World)
    (Htier : (mem_cache < length (tiers w))%nat)
    (Hfind : find_link key (links (tiers w !!! mem_cache)) = Some (expire, e))
    (Hlive : num_ltb expire (Num (timer w)) = false)
    (Hhash : get_hash hf (heap w !!! value e) = Ok h)
    (Hmutated : hash e ≠ Some h) :
  ∃ w1 w2,
    _read_from_cache mem_cache key persisted false hf w = (Ok (value e), w1)
    ∧ find_link key (links (tiers w1 !!! mem_cache)) = Some (expire, e)
    ∧ _read_from_cache mem_cache key persisted false hf w1 = (Ok (value e), w2)
    ∧ warnings w2
      = warnings w ++ [_get_mutated_output_error_message; _get_mutated_output_error_message].
Proof.
  assert (Hread : ∀ w0,
    find_link key (links (tiers w0 !!! mem_cache)) = Some (expire, e) →
    num_ltb expire (Num (timer w0)) = false →
    get_hash hf (heap w0 !!! value e) = Ok h →
    _read_from_cache mem_cache key persisted false hf w0
    = (Ok (value e),
       set_warnings (warnings w0 ++ [_get_mutated_output_error_message])
         (after_getitem mem_cache key w0))).
  { intros w0 Hf Hl Hh. unfold _read_from_cache, try_except.
    rewrite (_read_from_mem_cache_present _ _ _ _ _ _ _ Hf Hl), Hh.
    rewrite bool_decide_eq_false_2 by congruence.
    unfold st_warning, dg_warning. by unfold_m. }
  destruct (TTLCache_getitem_present _ _ _ _ _ Hfind Hlive) as (_ & _ & Hkept).
  eexists. eexists. split; [by apply Hread|].
  assert (Hfind1 : find_link key
            (links (tiers (set_warnings (warnings w ++ [_get_mutated_output_error_message])
                             (after_getitem mem_cache key w)) !!! mem_cache))
          = Some (expire, e)).
  { simpl. by rewrite list_lookup_total_insert_eq. }
  split; [exact Hfind1|]. split; [by apply Hread|].
  simpl. by rewrite <- app_assoc.
Qed.

Lemma _write_to_cache_persist_inv r vk v aom hf w w' :
  _write_to_cache r vk v true aom hf w = (Ok tt, w') →
  ∃ hsh, stored_hash aom hf (heap w !!! v) = Ok hsh
         ∧ num_ltb (maxsize (tiers w !!! r)) (Num 1) = false
         ∧ w' = set_files (<[cache_path vk := Pickled (heap w !!! v)]> (files w))
                  (after_setitem r vk (mkCacheEntry v hsh) w).
Proof.
  unfold _write_to_cache. unfold_m.
  destruct (_write_to_mem_cache r vk v aom hf w) as [[[]|e] w1] eqn:Hmem; [|done].
  destruct (_write_to_mem_cache_inv _ _ _ _ _ _ _ Hmem) as (hsh & Hhash & Hsize & ->).
  intros Hdisk. destruct (_write_to_disk_cache_inv _ _ _ _ Hdisk) as [_ ->].
  by exists hsh.
Qed.

(** The disk tier outlives the memory tier: after a call with
    [persist=True] ran the body and returned, clearing the memory caches
    and calling again, when the fingerprint hashed at that call in the
    environment the body left is the one of the first call, returns a new
    object with the state of the first result, loaded from disk, and does
    not run the body. *)
Theorem persisted_value_survives_memory_clear (d : Decorated) (args : Args) (v : nat)
    (w w1 : World)
    (Hon : client_caching w = true)
    (Hpersist : persist (params d) = true)
    (Hfirst : wrapped_func d args w = (Ok v, w1))
    (Hexecuted : executions w1 ≠ executions w)
    (Hstable : call_key (hash_funcs (params d)) (func d) args (globals w1)
               = call_key (hash_funcs (params d)) (func d) args (globals w)) :
  (v < length (heap w1))%nat
  ∧ ∃ w2, wrapped_func d args (snd (_clear_mem_cache w1)) = (Ok (length (heap w1)), w2)
          ∧ heap w2 !!! length (heap w1) = heap w1 !!! v
          ∧ executions w2 = executions w1.
Proof.
  rewrite wrapped_func_enabled in Hfirst by done.
  assert (Hon1 : client_caching w1 = true).
  { replace w1 with (snd (get_or_create_cached_value d args w)) by (by rewrite Hfirst).
    by rewrite get_or_create_keeps_switch. }
  destruct (executed_call_inv _ _ _ _ _ Hfirst Hexecuted)
    as (r & wa & vk & m & wb & wc & Hgc & Hkey & Hread & Hcall & Hwrite).
  destruct (get_cache_ok _ _ _ _ _ _ Hgc) as (me & t & Hme & Ht & _ & Hb).
  assert (Hbb : tier_bounds wb = tier_bounds wa).
  { replace wb with (snd (_read_from_cache r vk (persist (params d))
      (allow_output_mutation (params d)) (hash_funcs (params d)) wa))
      by (by rewrite Hread).
    rewrite _read_from_cache_frame;
      auto using tier_bounds_after_getitem, tier_bounds_after_setitem. }
  destruct (recompute_inv _ _ _ _ _ Hcall)
    as (c & _ & -> & Hheapc & _ & Htiersc & _).
  rewrite Hpersist in Hwrite.
  rewrite <- Hstable in Hkey.
  destruct (_write_to_cache_persist_inv _ _ _ _ _ _ _ Hwrite) as (hsh & Hhash & Hsize & ->).
  assert (Hbc : tier_bounds wc !! r = Some (me, t)).
  { unfold tier_bounds. rewrite Htiersc. fold (tier_bounds wb). by rewrite Hbb. }
  destruct (tier_bounds_lookup _ _ _ _ Hbc) as (_ & _ & Hmax & _).
  rewrite Hmax in Hsize.
  assert (Hc : heap wc !!! length (heap wb) = c)
    by (by rewrite Hheapc, list_lookup_total_middle).
  rewrite Hc in Hhash.
  simpl. rewrite Hheapc, length_app. simpl. split; [lia|].
  rewrite wrapped_func_enabled by done.
  rewrite get_or_create_steps.
  erewrite (get_cache_created _ _ _ me t); [|done|done|left; apply lookup_empty].
  cbn [globals set_globals set_files set_function_caches set_tiers after_setitem]
    in Hkey |- *.
  rewrite Hkey, Hpersist.
  erewrite (_read_from_cache_disk_hit _ _ _ _ _ c hsh); simpl.
  - eexists. split; [by rewrite Hheapc, length_app|]. simpl. split; [|done].
    rewrite (list_lookup_total_middle (heap wb ++ [c]) [] c)
      by (rewrite length_app; simpl; lia).
    by rewrite list_lookup_total_middle.
  - by rewrite list_lookup_total_middle.
  - by rewrite lookup_insert_eq, list_lookup_total_middle.
  - done.
  - by rewrite list_lookup_total_middle.
Qed.

End RoundTrips.

Section Warnings.
Context `{Host}.

(** A Streamlit element call made outside any cached function shows
    nothing; made inside the body of a cached function it shows the warning
    once, unless a suppression scope is active around it. *)
Theorem element_call_warns_inside_cached_call (w : World)
    (Hw : nonneg_counters (_cache_info w)) :
  (within_cached_func (_cache_info w) = 0 →
   maybe_show_cached_st_function_warning w = (Ok tt, w))
  ∧ (suppress_st_function_warning (_cache_info w) = 0 →
     fst (_calling_cached_function maybe_show_cached_st_function_warning w) = Ok tt
     ∧ warnings (snd (_calling_cached_function maybe_show_cached_st_function_warning w))
       = warnings w ++ [CACHED_ST_FUNCTION_WARNING])
  ∧ fst (_calling_cached_function
           (suppress_cached_st_function_warning maybe_show_cached_st_function_warning) w)
    = Ok tt
  ∧ warnings (snd (_calling_cached_function
                     (suppress_cached_st_function_warning
                        maybe_show_cached_st_function_warning) w))
    = warnings w.
Proof.
  destruct Hw as [Hwithin Hsuppress].
  split; [|split].
  - intros Hout. unfold maybe_show_cached_st_function_warning. by rewrite Hout.
  - intros Hnone. rewrite calling_unfold.
    unfold maybe_show_cached_st_function_warning, _show_cached_st_function_warning.
    simpl. rewrite Hnone.
    replace (0 <? within_cached_func (_cache_info w) + 1) with true
      by (symmetry; apply Z.ltb_lt; lia).
    simpl. rewrite suppress_unfold. simpl. by rewrite Hnone.
  - rewrite calling_unfold, suppress_unfold.
    unfold maybe_show_cached_st_function_warning. simpl.
    replace (suppress_st_function_warning (_cache_info w) + 1 <=? 0) with false
      by (symmetry; apply Z.leb_gt; lia).
    rewrite andb_false_r. simpl.
    by replace (0 <=? _ + 1 + -1) with true by (symmetry; apply Z.leb_le; lia).
Qed.

(** While a suppression scope is active, no code shows the warning,
    however the scopes nest inside it: the suppression is a depth, not a
    flag that an inner scope could switch off when it ends. *)
Theorem suppressed_scripts_never_warn (s : Script) (w : World)
    (Hactive : 0 < suppress_st_function_warning (_cache_info w)) :
  warnings (snd (run_script s w)) = warnings w.
Proof.
  revert w Hactive.
  induction s as [r|rest IH|block IHb rest IHr|block IHb rest IHr]; intros w Hactive;
    simpl.
  - done.
  - unfold mbind, M_bind, bind. unfold maybe_show_cached_st_function_warning.
    replace (suppress_st_function_warning (_cache_info w) <=? 0) with false
      by (symmetry; apply Z.leb_gt; lia).
    rewrite andb_false_r. by apply IH.
  - unfold mbind, M_bind, bind.
    pose proof (calling_preserves (run_script block) (run_script_preserves block) w)
      as Hinfo.
    assert (Hwarn : warnings (snd (_calling_cached_function (run_script block) w))
                    = warnings w).
    { rewrite calling_unfold. simpl. by rewrite IHb. }
    destruct (_calling_cached_function (run_script block) w) as [[[]|e] w2];
      simpl in *; [|done].
    rewrite IHr by (by rewrite Hinfo). done.
  - unfold mbind, M_bind, bind.
    pose proof (suppress_preserves (run_script block) (run_script_preserves block) w)
      as Hinfo.
    assert (Hwarn : warnings (snd (suppress_cached_st_function_warning
                                     (run_script block) w)) = warnings w).
    { rewrite suppress_unfold. simpl. rewrite IHb; [done|]. simpl. lia. }
    destruct (suppress_cached_st_function_warning (run_script block) w) as [[[]|e] w2];
      simpl in *; [|done].
    rewrite IHr by (by rewrite Hinfo). done.
Qed.

End Warnings.

Section RegistryInvariant.
Context `{Host}.

Lemma registry_valid_same w w' :
  function_caches w' = function_caches w → tier_bounds w' = tier_bounds w →
  registry_valid w → registry_valid w'.
Proof.
  intros Hreg Hb Hvalid key r Hr. rewrite Hreg in Hr.
  specialize (Hvalid key r Hr).
  assert (Hlen : length (tier_bounds w') = length (tier_bounds w)) by (by rewrite Hb).
  unfold tier_bounds in Hlen. by rewrite !length_fmap in Hlen; rewrite Hlen.
Qed.

Lemma get_cache_valid key ma ta w :
  registry_valid w → registry_valid (snd (get_cache key ma ta w)).
Proof.
  intros Hvalid. unfold get_cache.
  assert (Hcreate : ∀ c,
    registry_valid (set_function_caches (<[key := length (tiers w)]> (function_caches w))
                      (set_tiers (tiers w ++ [c]) w))).
  { intros c k r. simpl. rewrite length_app. simpl.
    destruct (decide (key = k)) as [->|Hne].
    - rewrite lookup_insert_eq. intros [= <-]. lia.
    - rewrite lookup_insert_ne by done. intros Hr. specialize (Hvalid k r Hr). lia. }
  destruct ma as [|me|], ta as [|t|]; simpl; try done;
    repeat case_match; simpl; done.
Qed.

(** The registry never names a tier that does not exist: a fresh process
    satisfies this, and every call of a decorated function, whatever its
    outcome, and every clearing of the memory caches keep it. *)
Theorem registry_stays_valid (d : Decorated) (args : Args) (w : World)
    (Hvalid : registry_valid w) :
  registry_valid (snd (wrapped_func d args w))
  ∧ registry_valid (snd (_clear_mem_cache w))
  ∧ ∀ caching, registry_valid (World_init caching).
Proof.
  split; [|split]; [|by intros key r|by intros caching key r].
  destruct (client_caching w) eqn:Hon.
  2:{ unfold wrapped_func. rewrite Hon. simpl.
      apply (registry_valid_same w); [| |done]; by rewrite call_func_frame. }
  rewrite wrapped_func_enabled by done. rewrite get_or_create_steps.
  pose proof (get_cache_valid (cache_key d) (max_entries (params d))
                (ttl_arg (params d)) w Hvalid) as Hvalid1.
  destruct (get_cache _ _ _ w) as [[r|e] w1]; simpl in Hvalid1; [|done].
  destruct (call_key _ _ _ _) as [vk|e]; [|done].
  assert (Hvalid2 : registry_valid (snd (_read_from_cache r vk (persist (params d))
            (allow_output_mutation (params d)) (hash_funcs (params d)) w1))).
  { apply (registry_valid_same w1); [| |done];
      rewrite _read_from_cache_frame;
      auto using tier_bounds_after_getitem, tier_bounds_after_setitem. }
  destruct (_read_from_cache r vk _ _ _ w1) as [[v|e] w2]; simpl in Hvalid2; [done|].
  destruct e; try done.
  assert (Hvalid3 : registry_valid (snd (recompute d args w2))).
  { apply (registry_valid_same w2); [| |done]; by rewrite recompute_frame. }
  destruct (recompute d args w2) as [[rv|e] w3]; simpl in Hvalid3; [|done].
  assert (Hvalid4 : registry_valid (snd (_write_to_cache r vk rv (persist (params d))
            (allow_output_mutation (params d)) (hash_funcs (params d)) w3))).
  { apply (registry_valid_same w3); [| |done];
      rewrite _write_to_cache_frame;
      auto using tier_bounds_after_setitem. }
  by destruct (_write_to_cache r vk rv _ _ _ w3) as [[[]|e] w4].
Qed.

End RegistryInvariant.

Section TwoStepDecoration.
Context `{Host}.

(** [@st.cache(keywords)] applied to a function decorates it exactly as
    [st.cache(function, keywords)] does; with [ignore_hash] set, the
    decorator raises at once in both forms, before any function is
    hashed. *)
Theorem decorator_with_keywords_only (p : CacheParams) (w : World) :
  (ignore_hash p = true →
   ∀ f, ∃ msg, cache_decorator f p w = (Raise (PlainException msg), w))
  ∧ (ignore_hash p = false →
     ∃ k, cache_decorator None p w = (Ok (inr k), w)
          ∧ ∀ f w', k f w' = cache f p w'
                    ∧ cache_decorator (Some f) p w'
                      = match k f w' with
                        | (Ok wrapped, w'') => (Ok (inl wrapped), w'')
                        | (Raise e, w'') => (Raise e, w'')
                        end).
Proof.
  split; intros Hflag; unfold cache_decorator; rewrite Hflag.
  - intros f. by eexists.
  - eexists. split; [reflexivity|]. intros f w'.
    assert (Hp : mkParams (persist p) (allow_output_mutation p) (show_spinner p)
                   (suppress_st_warning p) (hash_funcs p) false (max_entries p)
                   (ttl_arg p) = p).
    { destruct p. simpl in *. by subst. }
    rewrite Hp. split; [done|]. unfold_m.
    by destruct (cache f p w') as [[wrapped|e] w''].
Qed.

End TwoStepDecoration.

(** ** The further properties on the demo script *)

Lemma clear_then_call_recomputes_witness :
  executions (snd (wrapped_func (demo_decorated Double default_params) 3
                     (snd (@_clear_mem_cache demo_host (demo_cached_world false)))))
  = 2%nat.
Proof.
  apply (clear_then_call_recomputes (H:=demo_host) (demo_decorated Double default_params)
           3 (demo_cached_world false) PosInf PosInf "app.double(3)");
    vm_compute; reflexivity.
Defined.

Lemma changed_bounds_reset_tier_witness :
  ∃ r w2,
    function_caches (demo_cached_world false) !! "app.double"%string = Some r
    ∧ (r < length (tiers (demo_cached_world false)))%nat
    ∧ @get_cache demo_host "app.double" (PyNumber (Num 10)) PyNone (demo_cached_world false)
      = (Ok (length (tiers (demo_cached_world false))), w2)
    ∧ tiers w2 !! length (tiers (demo_cached_world false))
      = Some (mkTTLCache (Num 10) PosInf [])
    ∧ tiers w2 !! r = tiers (demo_cached_world false) !! r
    ∧ executions
        (snd (wrapped_func
                (demo_decorated Double (demo_params false false (PyNumber (Num 10)) PyNone))
                3 (demo_cached_world false)))
      = S (executions (demo_cached_world false)).
Proof.
  apply (changed_bounds_reset_tier (H:=demo_host)
           (demo_decorated Double default_params)
           (demo_decorated Double (demo_params false false (PyNumber (Num 10)) PyNone))
           3 0 (Num 10) PosInf "app.double(3)" (@World_init demo_host true)
           (demo_cached_world false));
    try (vm_compute; reflexivity); try (vm_compute; lia); try (left; discriminate).
Defined.

Lemma expired_entry_recomputed_witness :
  executions
    (snd (wrapped_func
            (demo_decorated Double (demo_params false false PyNone (PyNumber (Num 5))))
            3
            (advance_clock 6
               (snd (wrapped_func
                       (demo_decorated Double
                          (demo_params false false PyNone (PyNumber (Num 5))))
                       3 (@World_init demo_host true))))))
  = S (executions
         (snd (wrapped_func
                 (demo_decorated Double (demo_params false false PyNone (PyNumber (Num 5))))
                 3 (@World_init demo_host true)))).
Proof.
  apply (expired_entry_recomputed (H:=demo_host)
           (demo_decorated Double (demo_params false false PyNone (PyNumber (Num 5))))
           3 0 5 6 "app.double(3)" (@World_init demo_host true));
    try (vm_compute; reflexivity); try (vm_compute; lia); try lia.
  left. vm_compute. reflexivity.
Defined.

Lemma disk_written_only_on_persisted_miss_witness :
  files (snd (wrapped_func (demo_decorated Double (demo_params true false PyNone PyNone))
                3 demo_persisted_world))
  = files demo_persisted_world.
Proof.
  apply (disk_written_only_on_persisted_miss (H:=demo_host)). right.
  vm_compute. reflexivity.
Defined.

Lemma disabled_calls_bypass_cache_witness :
  executions
    (snd (wrapped_func (demo_decorated Double default_params) 3
            (snd (wrapped_func (demo_decorated Double default_params) 3
                    (@World_init demo_host false)))))
  = 2%nat.
Proof.
  apply (disabled_calls_bypass_cache (H:=demo_host) (demo_decorated Double default_params)
           3 (@World_init demo_host false)). reflexivity.
Defined.

Lemma raising_function_stores_nothing_witness :
  wrapped_func (demo_decorated Failing default_params) 3 (@World_init demo_host true)
  = (Raise (UserError 0),
     @set_globals demo_host 0
       (set_executions 1
          (snd (@get_cache demo_host "app.failing" PyNone PyNone
                  (@World_init demo_host true))))).
Proof.
  apply (raising_function_stores_nothing (H:=demo_host)
           (demo_decorated Failing default_params) 3 (@World_init demo_host true)
           (snd (@get_cache demo_host "app.failing" PyNone PyNone
                   (@World_init demo_host true)))
           0 "app.failing(3)" "app.failing(3)" (UserError 0) 0);
    try (vm_compute; reflexivity); try (split; simpl; lia); try discriminate.
Defined.

Lemma unhashable_result_stores_nothing_witness :
  fst (@wrapped_func picky_host
         (@mkDecorated picky_host Double
            (@mkParams picky_host false false true false tt false PyNone PyNone)
            "app.double")
         13 (@World_init picky_host true))
  = Raise (UnhashableType "cannot hash 26").
Proof.
  pose proof (unhashable_result_stores_nothing (H:=picky_host)
    (@mkDecorated picky_host Double
       (@mkParams picky_host false false true false tt false PyNone PyNone) "app.double")
    13 (@World_init picky_host true)
    (snd (@get_cache picky_host "app.double" PyNone PyNone (@World_init picky_host true)))
    0 "app.double(13)" [26] 0 (UnhashableType "cannot hash 26")
    eq_refl (conj (Z.le_refl 0) (Z.le_refl 0)) eq_refl eq_refl eq_refl eq_refl
    (λ Hp, match Hp in _ = b return (if b then _ else True) with eq_refl => I end)
    eq_refl eq_refl) as [Hrun _].
  by rewrite Hrun.
Defined.

Lemma unreadable_file_aborts_call_witness :
  fst (wrapped_func (demo_decorated Double (demo_params true false PyNone PyNone)) 3
         demo_corrupt_world)
  = Raise (CacheError
             "Unable to read from cache: Read zero byte file: cache/app.double(3).pickle")
  ∧ executions
      (snd (wrapped_func (demo_decorated Double (demo_params true false PyNone PyNone)) 3
              demo_corrupt_world)) = 0%nat.
Proof.
  destruct (unreadable_file_aborts_call (H:=demo_host)
    (demo_decorated Double (demo_params true false PyNone PyNone)) 3 demo_corrupt_world
    (snd (@get_cache demo_host "app.double" PyNone PyNone demo_corrupt_world))
    0 "app.double(3)" eq_refl eq_refl eq_refl eq_refl eq_refl eq_refl)
    as (Hrun & Hexec & _).
  rewrite Hrun. split; [reflexivity|exact Hexec].
Defined.

Lemma disk_round_trip_witness :
  ∃ w1 w2,
    @_write_to_disk_cache demo_host "k" 0 (demo_cached_world false) = (Ok tt, w1)
    ∧ @_read_from_disk_cache demo_host "k" (@mutate demo_host 0 [7] w1) = (Ok 1%nat, w2)
    ∧ heap w2 !!! 1%nat = [6]
    ∧ heap w2 !!! 0%nat = [7].
Proof.
  apply (disk_round_trip (H:=demo_host) "k" 0 [7] (demo_cached_world false));
    [vm_compute; lia|reflexivity].
Defined.

Lemma memory_round_trip_witness :
  fst (@_read_from_mem_cache demo_host 0 "k" false tt
         (advance_clock 1000
            (snd (@_write_to_mem_cache demo_host 0 "k" 0 false tt (demo_cached_world false)))))
  = Ok 0%nat.
Proof.
  apply (memory_round_trip (H:=demo_host) 0 "k" 0 false tt 1000 (demo_cached_world false)
           (snd (@_write_to_mem_cache demo_host 0 "k" 0 false tt (demo_cached_world false))));
    try (vm_compute; reflexivity); try lia; vm_compute; lia.
Defined.

Lemma mutation_warning_repeats_witness :
  ∃ w1 w2,
    @_read_from_cache demo_host 0 "app.double(3)" false false tt
      (@mutate demo_host 0 [7] (demo_cached_world false)) = (Ok 0%nat, w1)
    ∧ find_link "app.double(3)" (links (tiers w1 !!! 0%nat))
      = Some (PosInf, mkCacheEntry 0 (Some "6,"%string))
    ∧ @_read_from_cache demo_host 0 "app.double(3)" false false tt w1 = (Ok 0%nat, w2)
    ∧ warnings w2
      = [_get_mutated_output_error_message; _get_mutated_output_error_message].
Proof.
  apply (mutation_warning_repeats (H:=demo_host) 0 "app.double(3)" tt false PosInf
           (mkCacheEntry 0 (Some "6,"%string)) "7,"
           (@mutate demo_host 0 [7] (demo_cached_world false)));
    try (vm_compute; reflexivity); try (vm_compute; lia); discriminate.
Defined.

Lemma persisted_value_survives_memory_clear_witness :
  (0 < length (heap demo_persisted_world))%nat
  ∧ ∃ w2, wrapped_func (demo_decorated Double (demo_params true false PyNone PyNone)) 3
            (snd (@_clear_mem_cache demo_host demo_persisted_world))
          = (Ok (length (heap demo_persisted_world)), w2)
          ∧ heap w2 !!! length (heap demo_persisted_world)
            = heap demo_persisted_world !!! 0%nat
          ∧ executions w2 = executions demo_persisted_world.
Proof.
  apply (persisted_value_survives_memory_clear (H:=demo_host)
           (demo_decorated Double (demo_params true false PyNone PyNone)) 3 0
           (@World_init demo_host true) demo_persisted_world);
    try (vm_compute; reflexivity); try lia; vm_compute; lia.
Defined.

Lemma element_call_warns_inside_cached_call_witness :
  fst (_calling_cached_function maybe_show_cached_st_function_warning
         (@World_init demo_host true)) = Ok tt
  ∧ warnings (snd (_calling_cached_function maybe_show_cached_st_function_warning
                     (@World_init demo_host true)))
    = warnings (@World_init demo_host true) ++ [CACHED_ST_FUNCTION_WARNING].
Proof.
  apply (element_call_warns_inside_cached_call (H:=demo_host) (@World_init demo_host true));
    [split; simpl; lia|reflexivity].
Defined.

Lemma suppressed_scripts_never_warn_witness :
  warnings (snd (run_script demo_nested_script
                   (entered_suppress (@World_init demo_host true))))
  = warnings (entered_suppress (@World_init demo_host true)).
Proof.
  apply (suppressed_scripts_never_warn (H:=demo_host)). simpl. lia.
Defined.

Lemma registry_stays_valid_witness :
  registry_valid (snd (wrapped_func (demo_decorated Double default_params) 3
                         (@World_init demo_host true))).
Proof.
  assert (Hvalid : registry_valid (@World_init demo_host true)).
  { intros key r Hr. simpl in Hr. by rewrite lookup_empty in Hr. }
  exact (proj1 (registry_stays_valid (H:=demo_host)
                  (demo_decorated Double default_params) 3
                  (@World_init demo_host true) Hvalid)).
Defined.

Lemma decorator_with_keywords_only_witness :
  ∃ k, cache_decorator (H:=demo_host) None default_params (@World_init demo_host true)
       = (Ok (inr k), @World_init demo_host true)
       ∧ ∀ f w', k f w' = cache f default_params w'
                 ∧ cache_decorator (Some f) default_params w'
                   = match k f w' with
                     | (Ok wrapped, w'') => (Ok (inl wrapped), w'')
                     | (Raise e, w'') => (Raise e, w'')
                     end.
Proof.
  apply (decorator_with_keywords_only (H:=demo_host) default_params
           (@World_init demo_host true)). reflexivity.
Defined.

(** Without the outer suppression the same script warns for the element
    call made after the inner suppression scope has ended. *)
Example unsuppressed_script_warns :
  warnings (snd (run_script
                   (Calling (Suppress (StElement (Finish (Ok tt)))
                                      (StElement (Finish (Ok tt))))
                            (Finish (Ok tt)))
                   (@World_init demo_host true)))
  = [CACHED_ST_FUNCTION_WARNING].
Proof. reflexivity. Qed.
